(** * shallow-backup: the reinstallation module ([shallow_backup/reinstall.py])

    A shallow embedding of the four reinstallation entry points and of the
    Python primitives they are written with, followed by the properties of
    the dotfile path mapping, the copy loop and the package phase.

    The module talks to the operating system and to the rest of the package
    ([.utils], [.printing], [.config], [.compatibility]).  Those functions
    are collaborators: the embedding takes their behaviour as the fields of
    a class over an abstract world, threads the world through every call and
    records every call and every line of output in a trace. *)

From Stdlib Require Import Ascii ZArith.
From Stdlib Require String.
From stdpp Require Import base list strings gmap sorting pretty.

(** [set_solver] clears hypotheses that may be gone already. *)
#[local] Set Warnings "-clear-no-such-hyp".

(** Let [simpl] and [cbn] compute a concatenation whose left operand starts
    with a constructor. *)
#[local] Arguments String.append !_ _ / : simpl nomatch.

(** * Python string primitives

    Strings are sequences of characters; every function below follows the
    behaviour of the [str] method of the same name. *)

Module PyStr.

(** [s.startswith(p)] *)
Definition startswith (s p : string) : bool := String.prefix p s.

(** [s[n:]] for a non-negative [n] *)
Fixpoint slice_from (n : nat) (s : string) : string :=
  match n, s with
  | O, _ => s
  | S _, EmptyString => EmptyString
  | S k, String _ s' => slice_from k s'
  end.

(** [s.endswith(c)] for a one-character [c] *)
Fixpoint endswith_char (s : string) (c : ascii) : bool :=
  match s with
  | EmptyString => false
  | String a EmptyString => bool_decide (a = c)
  | String _ s' => endswith_char s' c
  end.

(** [s.replace(old, new)] scans left to right and replaces the
    non-overlapping occurrences of [old].  [skip] counts the characters of
    the occurrence just replaced that are still to be passed over. *)
Fixpoint replace_go (old new : string) (skip : nat) (s : string) : string :=
  match s with
  | EmptyString => EmptyString
  | String c s' =>
      match skip with
      | S k => replace_go old new k s'
      | O =>
          if String.prefix old s
          then new +:+ replace_go old new (String.length old - 1) s'
          else String c (replace_go old new 0 s')
      end
  end.

(** With an empty [old], Python puts [new] before every character and at
    the end. *)
Fixpoint intersperse_new (new s : string) : string :=
  match s with
  | EmptyString => new
  | String c s' => new +:+ String c (intersperse_new new s')
  end.

Definition replace (old new s : string) : string :=
  match old with
  | EmptyString => intersperse_new new s
  | String _ _ => replace_go old new 0 s
  end.

(** [s.split(sep)] for a one-character separator: never the empty list. *)
Fixpoint split (sep : ascii) (s : string) : list string :=
  match s with
  | EmptyString => [EmptyString]
  | String c s' =>
      if bool_decide (c = sep) then EmptyString :: split sep s'
      else match split sep s' with
           | x :: xs => String c x :: xs
           | [] => [String c EmptyString]
           end
  end.

(** [sep.join(l)] *)
Fixpoint join (sep : string) (l : list string) : string :=
  match l with
  | [] => EmptyString
  | [x] => x
  | x :: l' => x +:+ sep +:+ join sep l'
  end.

(** [c in s] for a character *)
Fixpoint contains_char (c : ascii) (s : string) : bool :=
  match s with
  | EmptyString => false
  | String a s' => bool_decide (a = c) || contains_char c s'
  end.

(** [old in s]: [old] occurs somewhere in [s] *)
Fixpoint occurs (old s : string) : bool :=
  String.prefix old s ||
  match s with
  | EmptyString => false
  | String _ s' => occurs old s'
  end.

(** [x in l] for a list of strings *)
Definition in_list (x : string) (l : list string) : bool :=
  bool_decide (x ∈ l).

(** The number of separators a string starts with. *)
Fixpoint leading (c : ascii) (s : string) : nat :=
  match s with
  | String a s' => if bool_decide (a = c) then S (leading c s') else 0
  | EmptyString => 0
  end.

End PyStr.

(** Characters that have no plain spelling inside a literal. *)
Definition newline : string := String "010"%char EmptyString.
Definition tab : string := String "009"%char EmptyString.
Definition double_quote : string := String "034"%char EmptyString.
Definition escape : string := String "027"%char EmptyString.

(** * [os.path], [shlex] and [pathlib] on POSIX *)

(** [os.path.join(a, b)] with two arguments ([posixpath.join]): an absolute
    [b] replaces [a]; otherwise [b] is appended, after a separator unless [a]
    is empty or already ends with one. *)
Definition os_path_join (a b : string) : string :=
  if PyStr.startswith b "/" then b
  else if bool_decide (a = EmptyString) || PyStr.endswith_char a "/"%char
       then a +:+ b
       else a +:+ "/" +:+ b.

Module shlex.

(** The characters of the class [[\w@%+=:,./-]] with [re.ASCII]: letters,
    digits, the underscore and the nine listed signs. *)
Definition safe_char (c : ascii) : bool :=
  let n := nat_of_ascii c in
  (bool_decide (48 ≤ n ≤ 57)) || (bool_decide (65 ≤ n ≤ 90))
  || (bool_decide (97 ≤ n ≤ 122))
  || PyStr.contains_char c "_@%+=:,./-".

(** [_find_unsafe(s) is not None] *)
Fixpoint find_unsafe (s : string) : bool :=
  match s with
  | EmptyString => false
  | String c s' => negb (safe_char c) || find_unsafe s'
  end.

(** The replacement of a single quote: a quote, a double-quoted quote, a
    quote. *)
Definition escaped_quote : string :=
  "'" +:+ double_quote +:+ "'" +:+ double_quote +:+ "'".

(** [shlex.quote(s)] *)
Definition quote (s : string) : string :=
  match s with
  | EmptyString => "''"
  | _ =>
      if find_unsafe s
      then "'" +:+ PyStr.replace "'" escaped_quote s +:+ "'"
      else s
  end.

End shlex.

(** [pathlib.PurePosixPath]: the root (empty, one separator or two) and the
    components after it. *)
Record Path : Type := mkPath { root : string; names : list string }.

Module pathlib.

(** A component is kept unless it is empty or a single dot. *)
Definition kept (x : string) : bool :=
  negb (bool_decide (x = EmptyString)) && negb (bool_decide (x = ".")).

(** [Path(s)]: exactly two leading separators are kept as the root, any
    other positive number counts as one. *)
Definition of_str (s : string) : Path :=
  {| root := match PyStr.leading "/"%char s with
             | 0 => EmptyString
             | 2 => "//"
             | _ => "/"
             end;
     names := List.filter kept (PyStr.split "/"%char s) |}.

(** [str(p)] *)
Definition str (p : Path) : string :=
  match root p, names p with
  | EmptyString, [] => "."
  | r, ns => r +:+ PyStr.join "/" ns
  end.

(** [p.parent]: a path without components is its own parent. *)
Definition parent (p : Path) : Path :=
  match names p with
  | [] => p
  | ns => {| root := root p; names := removelast ns |}
  end.

End pathlib.

(** [colorama] escape sequences used in the messages. *)
Module Fore.
Definition RED : string := escape +:+ "[31m".
Definition BLUE : string := escape +:+ "[34m".
End Fore.

Module Style.
Definition BRIGHT : string := escape +:+ "[1m".
Definition NORMAL : string := escape +:+ "[22m".
Definition RESET_ALL : string := escape +:+ "[0m".
End Style.

(** * Exceptions, events and the state of a run *)

(** The exception classes the module tells apart.  [OtherException] stands
    for an exception that is an instance of neither of the two classes the
    copy loop names in its handlers. *)
Inductive exn : Type :=
| PermissionError (filename : string)
| FileNotFoundError (message : string)
| OtherException (description : string).

(** What a run does that can be seen from outside: what it prints (through
    [print] and the functions of [.printing]) and which collaborators it
    calls, with the arguments and the result of each call. *)
Inductive event : Type :=
| Out_print (text : string)
| Out_section_header (title color : string)
| Out_red_bold (text : string)
| Out_blue_bold (text : string)
| Out_yellow (text : string)
| Out_yellow_bold (text : string)
| Out_list_pretty (items : list string)
| Out_dry_run_copy_info (source dest : string)
| Out_pkg_mgr_reinstall (pm : string)
| Call_exit_if_dir_is_empty (path kind : string) (r : option exn)
| Call_get_config
| Call_evaluate_condition (condition backup_or_reinstall dotfile_path : string)
    (r : bool)
| Call_isfile (path : string) (r : bool)
| Call_isdir (path : string) (r : bool)
| Call_get_abs_path_subfiles (path : string) (r : list string)
| Call_listdir (path : string) (r : list string)
| Call_get_fonts_dir (r : string)
| Call_open (path : string) (r : exn + list string)
| Call_safe_mkdir (path : string) (r : option exn)
| Call_copy (src dst : string) (r : option exn)
| Call_copyfile (src dst : string) (r : option exn)
| Call_copytree (src dst : string) (r : option exn)
| Call_run_cmd (command : string) (r : Z).

(** The calls that write to the file system, and the calls that start a
    process. *)
Definition fs_mutation (e : event) : bool :=
  match e with
  | Call_safe_mkdir _ _ | Call_copy _ _ _ | Call_copyfile _ _ _
  | Call_copytree _ _ _ => true
  | _ => false
  end.

Definition process_invocation (e : event) : bool :=
  match e with
  | Call_run_cmd _ _ | Call_evaluate_condition _ _ _ _ => true
  | _ => false
  end.

(** The per-entry options of a dotfile rule; [reinstall_condition] is
    [options.get] with the key [reinstall_condition] and the empty string as
    the default. *)
Record options : Type := mkOptions { reinstall_condition : option string }.

(** The mapping [get_config()] returns: both dictionaries keep the order of
    their entries. *)
Record Config : Type := mkConfig {
  dotfiles : list (string * options);
  config_mapping : list (string * string)
}.

(** The collaborators, over a world [W].  A call that can change the world
    returns the new one; a call that can raise returns the exception. *)
Class Collaborators (W : Type) : Type := {
  (* .utils *)
  env_exit_if_dir_is_empty : W → string → string → option exn;
  env_evaluate_condition : W → string → string → string → W * bool;
  env_get_abs_path_subfiles : W → string → list string;
  env_safe_mkdir : W → string → W * option exn;
  env_run_cmd : W → string → W * Z;
  env_find_path_for_permission_error_reporting : string → string;
  (* .config and .compatibility *)
  env_get_config : W → Config;
  env_get_fonts_dir : W → string;
  (* os, shutil and the builtins *)
  env_home : string;
  env_isfile : W → string → bool;
  env_isdir : W → string → bool;
  env_listdir : W → string → list string;
  env_open : W → string → exn + list string;
  env_copy : W → string → string → W * option exn;
  env_copyfile : W → string → string → W * option exn;
  env_copytree : W → string → string → W * option exn
}.

Record state (W : Type) : Type := mkState { world : W; trace : list event }.
Arguments mkState {W} _ _.
Arguments world {W} _.
Arguments trace {W} _.

(** A statement either completes with a value or raises. *)
Inductive outcome (A : Type) : Type :=
| Normal (a : A)
| Raised (e : exn).
Arguments Normal {A} _.
Arguments Raised {A} _.

(** A computation: from a state to an outcome and the state it leaves. *)
Definition Py (W A : Type) : Type := state W → outcome A * state W.

Definition ret {W A} (a : A) : Py W A := λ st, (Normal a, st).

Definition bind {W A B} (m : Py W A) (f : A → Py W B) : Py W B := λ st,
  match m st with
  | (Normal a, st') => f a st'
  | (Raised e, st') => (Raised e, st')
  end.

Declare Scope py_scope.
Delimit Scope py_scope with py.
Notation "x <- m ;; k" := (bind m (λ x, k))
  (at level 100, m at next level, k at level 200, right associativity)
  : py_scope.
Notation "m ;; k" := (bind m (λ _, k))
  (at level 100, k at level 200, right associativity) : py_scope.
Local Open Scope py_scope.

Definition raise {W A} (e : exn) : Py W A := λ st, (Raised e, st).

(** Append an event to the trace. *)
Definition log {W} (e : event) (st : state W) : state W :=
  mkState (world st) (trace st ++ [e]).

Definition emit {W} (e : event) : Py W unit := λ st, (Normal tt, log e st).

(** [try: body except ...: handler]: [handler e] is [None] when no clause
    matches [e], which then propagates. *)
Definition try_except {W A} (body : Py W A) (handler : exn → option (Py W A))
  : Py W A := λ st,
  match body st with
  | (Normal a, st') => (Normal a, st')
  | (Raised e, st') =>
      match handler e with
      | Some h => h st'
      | None => (Raised e, st')
      end
  end.

(** [for x in l: acc = body(acc, x)], where [acc] holds the local variables
    the body updates; an exception leaves the loop. *)
Fixpoint for_loop {W A S} (body : S → A → Py W S) (l : list A) (acc : S)
  : Py W S :=
  match l with
  | [] => ret acc
  | x :: l' => acc' <- body acc x;; for_loop body l' acc'
  end.

(** * The dotfile path mapping of [reinstall_dots_sb] *)

(** An identifier given as an absolute path is stored in the backup tree
    with its leading separator replaced by a colon. *)
Definition encode_identifier (dotfile_path_from_config : string) : string :=
  if PyStr.startswith dotfile_path_from_config "/"
  then ":" +:+ PyStr.slice_from 1 dotfile_path_from_config
  else dotfile_path_from_config.

Definition real_path_dotfile (dots_path dotfile_path_from_config : string)
  : string :=
  os_path_join dots_path (encode_identifier dotfile_path_from_config).

Definition abs_path_start (dots_path : string) : string :=
  os_path_join dots_path ":".

(** The string [dest] computed for one [source] in the second loop. *)
Definition dest_of_source (dots_path home_path source : string) : string :=
  if PyStr.startswith source (abs_path_start dots_path)
  then "/" +:+ PyStr.slice_from (String.length (abs_path_start dots_path)) source
  else PyStr.replace dots_path (home_path +:+ "/") source.

(** The list of [(Path(source), Path(dest))] pairs. *)
Definition full_path_dotfiles_to_reinstall
    (dots_path home_path : string) (dotfiles_to_reinstall : list string)
  : list (Path * Path) :=
  (λ source, (pathlib.of_str source,
              pathlib.of_str (dest_of_source dots_path home_path source)))
    <$> dotfiles_to_reinstall.

(** The local variables the copy loop updates. *)
Record copy_locals : Type := mkLocals {
  reinstallation_error_count : nat;
  files_with_permission_errors : gset string
}.

(** The line printed when the parent of a destination is a regular file. *)
Definition parent_is_file_message (parent_dir dot_dest : Path) : string :=
  Fore.RED +:+ Style.BRIGHT +:+ "ERROR: " +:+ Style.NORMAL
  +:+ pathlib.str parent_dir +:+ Style.BRIGHT
  +:+ " is a file, however, this reinstallation process attempts to create "
  +:+ Style.NORMAL +:+ pathlib.str dot_dest +:+ Style.BRIGHT
  +:+ ", which would use that path as a directory. You will have to manually remediate this issue (likely by renaming or moving "
  +:+ Style.NORMAL +:+ pathlib.str (pathlib.parent dot_dest) +:+ Style.BRIGHT
  +:+ ")" +:+ Style.NORMAL +:+ Style.RESET_ALL.

Definition manual_resolution_message : string :=
  newline +:+ "Some errors which require manual resolution detected.".

Definition permission_errors_message (num_permission_errors : nat) : string :=
  newline +:+ pretty num_permission_errors
  +:+ " permission errors detected. Most of the time, this is not a problem."
  +:+ newline
  +:+ "Git repos will have some read-only files, and will prevent you from writing to them without using sudo."
  +:+ newline
  +:+ "Additionally, some package managers (like zcomet, etc) make their install files read-only."
  +:+ newline
  +:+ "You should update these files using the respective tools that created them."
  +:+ newline +:+ "The following paths were problematic:".

(** [sorted(s)] for a set of strings: the elements in increasing order of
    their characters' codes. *)
Definition sorted (s : gset string) : list string :=
  merge_sort String.le (elements s).

(** * The package managers of [reinstall_packages_sb] *)

Definition known_managers : list string :=
  ["gem"; "cargo"; "npm"; "pip"; "pip3"; "brew"; "vscode"; "macports"].

(** [file.split("_")[0]] *)
Definition first_token (file : string) : string :=
  hd EmptyString (PyStr.split "_"%char file).

(** [manager = file.split("_")[0].replace("-", " ")] *)
Definition manager_of (file : string) : string :=
  PyStr.replace "-" " " (first_token file).

(** The first loop over [os.listdir(packages_path)]. *)
Definition find_package_mgrs (listing : list string) : gset string :=
  foldl (λ (package_mgrs : gset string) file,
           if PyStr.in_list (manager_of file) known_managers
           then {[first_token file]} ∪ package_mgrs
           else package_mgrs) ∅ listing.

(** The leading token as the specification words it: the characters before
    the first underscore or hyphen. *)
Fixpoint spec_leading_token (file : string) : string :=
  match file with
  | EmptyString => EmptyString
  | String c s =>
      if bool_decide (c = "_"%char) || bool_decide (c = "-"%char)
      then EmptyString
      else String c (spec_leading_token s)
  end.

(** * The entry points *)

Section reinstall.
Context {W : Type} `{!Collaborators W}.

(** ** Calls to the collaborators *)

(** A call that only reads the world. *)
Definition query {A} (f : W → A) (ev : A → event) : Py W A := λ st,
  let r := f (world st) in (Normal r, log (ev r) st).

(** A call that can change the world. *)
Definition action {A} (f : W → W * A) (ev : A → event) : Py W A := λ st,
  let '(w, r) := f (world st) in (Normal r, mkState w (trace st ++ [ev r])).

(** A call that raised leaves the caller with the exception. *)
Definition check (r : option exn) : Py W unit :=
  match r with
  | None => ret tt
  | Some e => raise e
  end.

Definition exit_if_dir_is_empty (path kind : string) : Py W unit :=
  r <- query (λ w, env_exit_if_dir_is_empty w path kind)
            (Call_exit_if_dir_is_empty path kind);;
  check r.

Definition get_config : Py W Config :=
  query env_get_config (λ _, Call_get_config).

Definition evaluate_condition (condition backup_or_reinstall dotfile_path : string)
  : Py W bool :=
  action (λ w, env_evaluate_condition w condition backup_or_reinstall dotfile_path)
         (Call_evaluate_condition condition backup_or_reinstall dotfile_path).

Definition os_path_isfile (path : string) : Py W bool :=
  query (λ w, env_isfile w path) (Call_isfile path).

Definition os_path_isdir (path : string) : Py W bool :=
  query (λ w, env_isdir w path) (Call_isdir path).

Definition get_abs_path_subfiles (path : string) : Py W (list string) :=
  query (λ w, env_get_abs_path_subfiles w path) (Call_get_abs_path_subfiles path).

Definition os_listdir (path : string) : Py W (list string) :=
  query (λ w, env_listdir w path) (Call_listdir path).

Definition get_fonts_dir : Py W string :=
  query env_get_fonts_dir Call_get_fonts_dir.

(** [open(path, "r")] and the lines read from the file. *)
Definition open_lines (path : string) : Py W (list string) :=
  r <- query (λ w, env_open w path) (Call_open path);;
  match r with
  | inl e => raise e
  | inr lines => ret lines
  end.

Definition safe_mkdir (path : string) : Py W unit :=
  r <- action (λ w, env_safe_mkdir w path) (Call_safe_mkdir path);; check r.

Definition copy (src dst : string) : Py W unit :=
  r <- action (λ w, env_copy w src dst) (Call_copy src dst);; check r.

Definition copyfile (src dst : string) : Py W unit :=
  r <- action (λ w, env_copyfile w src dst) (Call_copyfile src dst);; check r.

Definition copytree (src dst : string) : Py W unit :=
  r <- action (λ w, env_copytree w src dst) (Call_copytree src dst);; check r.

Definition run_cmd (command : string) : Py W Z :=
  action (λ w, env_run_cmd w command) (Call_run_cmd command).

Definition find_path_for_permission_error_reporting (filename : string)
  : string :=
  env_find_path_for_permission_error_reporting filename.

(** ** [reinstall_dots_sb] *)

(** The body of the loop over [config.items()]. *)
Definition gather_body (dots_path : string)
    (dotfiles_to_reinstall : list string) (item : string * options)
  : Py W (list string) :=
  let '(dotfile_path_from_config, options) := item in
  condition_success <-
    evaluate_condition (default EmptyString (reinstall_condition options))
                       "reinstall" dotfile_path_from_config;;
  if negb condition_success then ret dotfiles_to_reinstall
  else
    let real_path_dotfile := real_path_dotfile dots_path dotfile_path_from_config in
    is_file <- os_path_isfile real_path_dotfile;;
    if is_file then ret (dotfiles_to_reinstall ++ [real_path_dotfile])
    else
      subfiles_to_add <- get_abs_path_subfiles real_path_dotfile;;
      ret (dotfiles_to_reinstall ++ subfiles_to_add).

(** The handlers of the [try] around [copy]. *)
Definition copy_handler (loc : copy_locals) (err : exn)
  : option (Py W copy_locals) :=
  match err with
  | PermissionError filename =>
      Some (ret (mkLocals (reinstallation_error_count loc)
                    ({[find_path_for_permission_error_reporting filename]}
                     ∪ files_with_permission_errors loc)))
  | FileNotFoundError message =>
      Some (emit (Out_red_bold ("ERROR: " +:+ message));; ret loc)
  | OtherException _ => None
  end.

(** The body of the loop over the pairs. *)
Definition copy_body (dry_run : bool) (loc : copy_locals) (pair : Path * Path)
  : Py W copy_locals :=
  let '(dot_source, dot_dest) := pair in
  if dry_run then
    emit (Out_dry_run_copy_info (pathlib.str dot_source) (pathlib.str dot_dest));;
    ret loc
  else
    let parent_dir := pathlib.parent dot_dest in
    parent_is_file <- os_path_isfile (pathlib.str parent_dir);;
    if parent_is_file then
      emit (Out_print (parent_is_file_message parent_dir dot_dest));;
      ret (mkLocals (S (reinstallation_error_count loc))
                     (files_with_permission_errors loc))
    else
      safe_mkdir (pathlib.str (pathlib.parent dot_dest));;
      try_except
        (copy (pathlib.str dot_source) (pathlib.str dot_dest);; ret loc)
        (copy_handler loc).

(** What follows the copy loop. *)
Definition report (loc : copy_locals) : Py W unit :=
  (if bool_decide (reinstallation_error_count loc ≠ 0)
   then emit (Out_red_bold manual_resolution_message)
   else ret tt);;
  let num_permission_errors := size (files_with_permission_errors loc) in
  (if bool_decide (num_permission_errors ≠ 0)
   then emit (Out_red_bold (permission_errors_message num_permission_errors));;
        emit (Out_list_pretty (sorted (files_with_permission_errors loc)))
   else ret tt);;
  emit (Out_section_header "DOTFILE REINSTALLATION COMPLETED" Fore.BLUE).

Definition initial_locals : copy_locals := mkLocals 0 ∅.

Definition reinstall_dots_sb (dots_path home_path : string) (dry_run : bool)
  : Py W unit :=
  exit_if_dir_is_empty dots_path "dotfile";;
  emit (Out_section_header "REINSTALLING DOTFILES" Fore.BLUE);;
  config <- get_config;;
  dotfiles_to_reinstall <- for_loop (gather_body dots_path) (dotfiles config) [];;
  loc <- for_loop (copy_body dry_run)
         (full_path_dotfiles_to_reinstall dots_path home_path
            dotfiles_to_reinstall)
         initial_locals;;
  report loc.

(** ** [reinstall_fonts_sb] *)

Definition font_body (dry_run : bool) (_ : unit) (font : string) : Py W unit :=
  fonts_dir <- get_fonts_dir;;
  let dest_path :=
    shlex.quote (os_path_join fonts_dir
                   (List.last (PyStr.split "/"%char font) EmptyString)) in
  if dry_run then emit (Out_dry_run_copy_info font dest_path)
  else copyfile (shlex.quote font) (shlex.quote dest_path).

Definition reinstall_fonts_sb (fonts_path : string) (dry_run : bool)
  : Py W unit :=
  exit_if_dir_is_empty fonts_path "font";;
  emit (Out_section_header "REINSTALLING FONTS" Fore.BLUE);;
  fonts <- get_abs_path_subfiles fonts_path;;
  for_loop (font_body dry_run) fonts tt;;
  emit (Out_section_header "FONT REINSTALLATION COMPLETED" Fore.BLUE).

(** ** [reinstall_configs_sb] *)

Definition config_body (configs_path : string) (dry_run : bool) (_ : unit)
    (item : string * string) : Py W unit :=
  let '(dest_path, backup_loc) := item in
  let dest_path := shlex.quote dest_path in
  let source_path := shlex.quote (os_path_join configs_path backup_loc) in
  if dry_run then emit (Out_dry_run_copy_info source_path dest_path)
  else
    is_dir <- os_path_isdir source_path;;
    if is_dir then copytree source_path dest_path
    else
      is_file <- os_path_isfile source_path;;
      if is_file then copyfile source_path dest_path else ret tt.

Definition reinstall_configs_sb (configs_path : string) (dry_run : bool)
  : Py W unit :=
  exit_if_dir_is_empty configs_path "config";;
  emit (Out_section_header "REINSTALLING CONFIG FILES" Fore.BLUE);;
  config <- get_config;;
  for_loop (config_body configs_path dry_run) (config_mapping config) tt;;
  emit (Out_section_header "CONFIG REINSTALLATION COMPLETED" Fore.BLUE).

(** ** [reinstall_packages_sb] *)

Definition run_cmd_if_no_dry_run (command : string) (dry_run : bool) : Py W Z :=
  if dry_run then
    emit (Out_yellow_bold ("$ " +:+ command));;
    (* Return 0 for any processes depending on chained successful commands *)
    ret 0%Z
  else run_cmd command.

(** The body of the loop over the lines of [vscode_list.txt]. *)
Definition vscode_body (dry_run : bool) (_ : unit) (package : string)
  : Py W unit :=
  let cmd := "code --install-extension " +:+ package in
  run_cmd_if_no_dry_run cmd dry_run;; ret tt.

(** The body of the loop that builds and runs the commands. *)
Definition pm_body (packages_path : string) (dry_run : bool) (_ : unit)
    (pm : string) : Py W unit :=
  if bool_decide (pm = "brew") then
    emit (Out_pkg_mgr_reinstall pm);;
    let cmd := "brew bundle install --no-lock --file " +:+ packages_path
               +:+ "/brew_list.txt" in
    run_cmd_if_no_dry_run cmd dry_run;; ret tt
  else if bool_decide (pm = "npm") then
    emit (Out_pkg_mgr_reinstall pm);;
    let cmd := "cat " +:+ packages_path
               +:+ "/npm_list.txt | xargs npm install -g" in
    run_cmd_if_no_dry_run cmd dry_run;; ret tt
  else if bool_decide (pm = "pip") then
    emit (Out_pkg_mgr_reinstall pm);;
    let cmd := "pip install -r " +:+ packages_path +:+ "/pip_list.txt" in
    run_cmd_if_no_dry_run cmd dry_run;; ret tt
  else if bool_decide (pm = "pip3") then
    emit (Out_pkg_mgr_reinstall pm);;
    let cmd := "pip3 install -r " +:+ packages_path +:+ "/pip3_list.txt" in
    run_cmd_if_no_dry_run cmd dry_run;; ret tt
  else if bool_decide (pm = "vscode") then
    emit (Out_pkg_mgr_reinstall pm);;
    file <- open_lines (packages_path +:+ "/vscode_list.txt");;
    for_loop (vscode_body dry_run) file tt
  else if bool_decide (pm = "macports") then
    emit (Out_red_bold "WARNING: Macports reinstallation is not supported.")
  else if bool_decide (pm = "gem") then
    emit (Out_pkg_mgr_reinstall pm);;
    let cmd := "cat " +:+ packages_path
               +:+ "/gem_list.txt | xargs -L 1 gem install" in
    run_cmd_if_no_dry_run cmd dry_run;; ret tt
  else if bool_decide (pm = "cargo") then
    emit (Out_pkg_mgr_reinstall pm);;
    let cmd := "cat " +:+ packages_path
               +:+ "/cargo_list.txt | xargs -L 1 cargo install" in
    run_cmd_if_no_dry_run cmd dry_run;; ret tt
  else ret tt.

(** The set [package_mgrs] is iterated in the order of its elements, which
    Python leaves unspecified. *)
Definition reinstall_packages_sb (packages_path : string) (dry_run : bool)
  : Py W unit :=
  exit_if_dir_is_empty packages_path "package";;
  emit (Out_section_header "REINSTALLING PACKAGES" Fore.BLUE);;
  listing <- os_listdir packages_path;;
  let package_mgrs := find_package_mgrs listing in
  emit (Out_blue_bold "Package Manager Backups Found:");;
  for_loop (λ _ mgr, emit (Out_yellow (tab +:+ mgr))) (elements package_mgrs) tt;;
  emit (Out_print EmptyString);;
  for_loop (pm_body packages_path dry_run) (elements package_mgrs) tt;;
  emit (Out_section_header "PACKAGE REINSTALLATION COMPLETED" Fore.BLUE).

(** ** [reinstall_all_sb] *)

Definition reinstall_all_sb
    (dotfiles_path packages_path fonts_path configs_path : string)
    (dry_run : bool) : Py W unit :=
  reinstall_dots_sb dotfiles_path env_home dry_run;;
  reinstall_packages_sb packages_path dry_run;;
  reinstall_fonts_sb fonts_path dry_run;;
  reinstall_configs_sb configs_path dry_run.

End reinstall.

(** The events a computation adds to the trace it starts from. *)
Definition new_events {W} (before after : state W) : list event :=
  drop (length (trace before)) (trace after).

(** The file names of the permission errors that [copy] raised. *)
Definition permission_denied (evs : list event) : list string :=
  omap (λ e, match e with
             | Call_copy _ _ (Some (PermissionError filename)) => Some filename
             | _ => None
             end) evs.

(** A call to [safe_mkdir] or [copy] that raised an exception the loop has
    no handler for. *)
Definition unhandled (e : event) : bool :=
  match e with
  | Call_safe_mkdir _ (Some _) => true
  | Call_copy _ _ (Some (OtherException _)) => true
  | _ => false
  end.

(** * A small file system

    A concrete world on which the entry points can be run: the regular
    files, the directories, the destinations that cannot be written and the
    loaded configuration. *)

Module Toy.

Record fs : Type := mkFs {
  regular_files : list string;
  directories : list string;
  read_only : list string;
  config : Config
}.

Definition under (dir path : string) : bool :=
  PyStr.startswith path (dir +:+ "/").

Definition is_file (w : fs) (path : string) : bool :=
  bool_decide (path ∈ regular_files w).

Definition is_dir (w : fs) (path : string) : bool :=
  bool_decide (path ∈ directories w).

Definition mkdir (w : fs) (path : string) : fs * option exn :=
  (mkFs (regular_files w) (path :: directories w) (read_only w) (config w),
   None).

(** Copying fails when the source is missing, is a directory, or when the
    destination cannot be written. *)
Definition copy_file (w : fs) (src dst : string) : fs * option exn :=
  if is_dir w src then (w, Some (OtherException "IsADirectoryError"))
  else if negb (is_file w src)
  then (w, Some (FileNotFoundError
                   ("[Errno 2] No such file or directory: '" +:+ src +:+ "'")))
  else if bool_decide (dst ∈ read_only w)
  then (w, Some (PermissionError dst))
  else (mkFs (dst :: regular_files w) (directories w) (read_only w) (config w),
        None).

Definition open_file (w : fs) (path : string) : exn + list string :=
  if is_file w path then inr []
  else inl (FileNotFoundError
              ("[Errno 2] No such file or directory: '" +:+ path +:+ "'")).

Global Instance collaborators : Collaborators fs := {|
  env_exit_if_dir_is_empty w path kind := None;
  env_evaluate_condition w condition _ _ :=
    (w, negb (bool_decide (condition = "false")));
  env_get_abs_path_subfiles w path :=
    List.filter (under path) (regular_files w);
  env_safe_mkdir := mkdir;
  env_run_cmd w command := (w, 0%Z);
  env_find_path_for_permission_error_reporting filename := filename;
  env_get_config := config;
  env_get_fonts_dir w := "/home/u/.fonts";
  env_home := "/home/u";
  env_isfile := is_file;
  env_isdir := is_dir;
  env_listdir w path :=
    PyStr.slice_from (S (String.length path))
      <$> List.filter (under path) (regular_files w);
  env_open := open_file;
  env_copy := copy_file;
  env_copyfile := copy_file;
  env_copytree w src dst := (w, None)
|}.

Definition no_config : Config := mkConfig [] [].

Definition start (w : fs) : state fs := mkState w [].

(** A backup of two dotfiles whose destinations are read-only. *)
Definition two_read_only : fs :=
  mkFs ["/backup/.vimrc"; "/backup/.zshrc"] ["/backup"; "/home/u"]
       ["/home/u/.zshrc"; "/home/u/.vimrc"] no_config.

(** A home directory in which [.config] is a regular file. *)
Definition config_is_a_file : fs :=
  mkFs ["/backup/.config/app.toml"; "/home/u/.config"] ["/backup"; "/home/u"]
       [] no_config.

(** A packages directory with one known and one unknown list. *)
Definition two_lists : fs :=
  mkFs ["/backup/packages/brew_list.txt"; "/backup/packages/unknownmgr_list.txt"]
       ["/backup/packages"] [] no_config.

(** A file that sits at the quoted spelling of a configuration path. *)
Definition quoted_name_exists : fs :=
  mkFs ["'/backup/configs/my file'"] [] []
       (mkConfig [] [("/home/u/.my file", "my file")]).

End Toy.

(** * A file system with failures

    The small file system, with backup directories that are empty,
    directories that cannot be made and trees that cannot be copied over an
    existing directory. *)

Module Faulty.

Record fs : Type := mkFs {
  base : Toy.fs;
  empty_dirs : list string;
  locked : list string
}.

Definition lift {A} (w : fs) (r : Toy.fs * A) : fs * A :=
  (mkFs r.1 (empty_dirs w) (locked w), r.2).

Definition check_empty (w : fs) (path kind : string) : option exn :=
  if bool_decide (path ∈ empty_dirs w)
  then Some (OtherException "SystemExit: 1")
  else None.

Definition mkdir (w : fs) (path : string) : fs * option exn :=
  if bool_decide (path ∈ locked w) then (w, Some (PermissionError path))
  else lift w (Toy.mkdir (base w) path).

Definition copy_tree (w : fs) (src dst : string) : fs * option exn :=
  if Toy.is_dir (base w) dst then (w, Some (OtherException "FileExistsError"))
  else (w, None).

Global Instance collaborators : Collaborators fs := {|
  env_exit_if_dir_is_empty := check_empty;
  env_evaluate_condition w condition how path :=
    lift w (env_evaluate_condition (base w) condition how path);
  env_get_abs_path_subfiles w := env_get_abs_path_subfiles (base w);
  env_safe_mkdir := mkdir;
  env_run_cmd w command := (w, 1%Z);
  env_find_path_for_permission_error_reporting filename := filename;
  env_get_config w := Toy.config (base w);
  env_get_fonts_dir w := "/home/u/.fonts";
  env_home := "/home/u";
  env_isfile w := Toy.is_file (base w);
  env_isdir w := Toy.is_dir (base w);
  env_listdir w := env_listdir (base w);
  env_open w := Toy.open_file (base w);
  env_copy w src dst := lift w (Toy.copy_file (base w) src dst);
  env_copyfile w src dst := lift w (Toy.copy_file (base w) src dst);
  env_copytree := copy_tree
|}.

Definition start (w : fs) : state fs := mkState w [].

(** The home directory cannot receive new directories. *)
Definition locked_home : fs :=
  mkFs (Toy.mkFs ["/backup/.config/app.toml"; "/backup/.vimrc"]
          ["/backup"; "/home/u"] [] Toy.no_config)
       [] ["/home/u/.config"].

(** Every backup directory is empty. *)
Definition nothing_saved : fs :=
  mkFs (Toy.mkFs [] ["/backup"] [] Toy.no_config)
       ["/backup/dotfiles"; "/backup/packages"; "/backup/fonts";
        "/backup/configs"] [].

(** A configuration directory whose destination exists already. *)
Definition config_exists : fs :=
  mkFs (Toy.mkFs [] ["/backup/configs/nvim"; "/home/u/.config/nvim"] []
          (mkConfig [] [("/home/u/.config/nvim", "nvim");
                            ("/home/u/.config/git", "git")]))
       [] [].

End Faulty.

(** * Kinds of events *)

(** The test of a destination's parent that found a regular file. *)
Definition parent_is_file_hit (e : event) : bool :=
  match e with
  | Call_isfile _ true => true
  | _ => false
  end.

(** A call of [safe_mkdir] or [copy] that raised. *)
Definition copy_failed (e : event) : bool :=
  match e with
  | Call_safe_mkdir _ (Some _) | Call_copy _ _ (Some _) => true
  | _ => false
  end.

(** A command handed to [run_cmd]. *)
Definition command_run (e : event) : bool :=
  match e with
  | Call_run_cmd _ _ => true
  | _ => false
  end.

(** The managers whose branch runs one command on a list file. *)
Definition list_file_managers : list string :=
  ["brew"; "npm"; "pip"; "pip3"; "gem"; "cargo"].

(** * Observing a run *)

(** What the copy loop prints for a list of pairs in a dry run. *)
Definition dry_run_infos (pairs : list (Path * Path)) : list event :=
  (λ pair, Out_dry_run_copy_info (pathlib.str pair.1) (pathlib.str pair.2))
    <$> pairs.

(** The lines that tell of an error in the dotfile run. *)
Definition error_report (e : event) : bool :=
  match e with
  | Out_print _ | Out_red_bold _ | Out_list_pretty _ => true
  | _ => false
  end.

(** [confined P m]: whatever the state [m] starts from, it only adds
    events that satisfy [P]. *)
Definition confined {W A} (P : event → Prop) (m : Py W A) : Prop :=
  ∀ st, ∃ evs, trace (m st).2 = trace st ++ evs ∧ Forall P evs.

(** [keeps_world m]: [m] leaves the world as it found it. *)
Definition keeps_world {W A} (m : Py W A) : Prop :=
  ∀ st, world (m st).2 = world st.

(** The state after the three calls of a pair that reaches [copy]. *)
Definition after_copy {W} (st : state W) (dot_source dot_dest : Path) (w : W)
    (r : option exn) : state W :=
  mkState w
    (trace st ++ [Call_isfile (pathlib.str (pathlib.parent dot_dest)) false;
                  Call_safe_mkdir (pathlib.str (pathlib.parent dot_dest)) None;
                  Call_copy (pathlib.str dot_source) (pathlib.str dot_dest) r]).

(** * Facts on the string primitives *)

Section string_facts.

Lemma str_app_empty_r (s : string) : s +:+ EmptyString = s.
Proof. induction s as [|c s IH]; [done|]. cbn. by rewrite IH. Qed.

Lemma str_app_assoc (a b c : string) : (a +:+ b) +:+ c = a +:+ b +:+ c.
Proof. induction a as [|x a IH]; [done|]. cbn. by rewrite IH. Qed.

Lemma str_length_app (a b : string) :
  String.length (a +:+ b) = String.length a + String.length b.
Proof. induction a as [|x a IH]; [done|]. cbn. by rewrite IH. Qed.

Lemma prefix_empty (s : string) : String.prefix EmptyString s = true.
Proof. by destruct s. Qed.

Lemma prefix_cons (c a : ascii) (p s : string) :
  String.prefix (String c p) (String a s)
  = bool_decide (c = a) && String.prefix p s.
Proof. cbn. destruct (ascii_dec c a); by case_bool_decide. Qed.

Lemma prefix_app (p s : string) : String.prefix p (p +:+ s) = true.
Proof.
  induction p as [|c p IH]; [apply prefix_empty|].
  cbn [String.append]. rewrite prefix_cons, IH. by case_bool_decide.
Qed.

Lemma startswith_app (p s : string) : PyStr.startswith (p +:+ s) p = true.
Proof. apply prefix_app. Qed.

Lemma slice_from_app (p s : string) :
  PyStr.slice_from (String.length p) (p +:+ s) = s.
Proof. induction p as [|c p IH]; cbn; [by destruct s|done]. Qed.

Lemma startswith_cons_inv (s : string) (c : ascii) :
  PyStr.startswith s (String c EmptyString) = true →
  s = String c (PyStr.slice_from 1 s).
Proof.
  destruct s as [|a s]; [done|]. unfold PyStr.startswith.
  rewrite prefix_cons. case_bool_decide; [|done]. by subst.
Qed.

(** Joining a relative second argument is a concatenation after the joined
    directory prefix. *)
Lemma os_path_join_colon (a r : string) :
  os_path_join a (":" +:+ r) = os_path_join a ":" +:+ r.
Proof.
  unfold os_path_join, PyStr.startswith.
  replace (String.prefix "/" (":" +:+ r)) with false by done.
  replace (String.prefix "/" ":") with false by done.
  destruct (_ || _); by rewrite ?str_app_assoc.
Qed.

(** The characters of an occurrence that was just replaced are passed over. *)
Lemma replace_go_skip (old new x rest : string) :
  PyStr.replace_go old new (String.length x) (x +:+ rest)
  = PyStr.replace_go old new 0 rest.
Proof. induction x as [|c x IH]; [by destruct rest|]. apply IH. Qed.

Lemma replace_go_prefix (old new rest : string) :
  old ≠ EmptyString →
  PyStr.replace_go old new 0 (old +:+ rest)
  = new +:+ PyStr.replace_go old new 0 rest.
Proof.
  destruct old as [|c o]; [done|intros _].
  change (String c o +:+ rest) with (String c (o +:+ rest)).
  cbn [PyStr.replace_go].
  change (String c (o +:+ rest)) with (String c o +:+ rest).
  rewrite prefix_app. cbn [String.length].
  replace (S (String.length o) - 1) with (String.length o) by lia.
  by rewrite replace_go_skip.
Qed.

Lemma replace_go_absent (old new s : string) :
  PyStr.occurs old s = false → PyStr.replace_go old new 0 s = s.
Proof.
  induction s as [|c s IH]; [done|].
  cbn [PyStr.occurs PyStr.replace_go].
  intros [Hp Hs]%orb_false_iff. rewrite Hp. f_equal. by apply IH.
Qed.

(** Replacing [old], which occurs at the start and nowhere after it,
    substitutes the prefix and keeps the rest. *)
Lemma replace_prefix_once (old new rest : string) :
  old ≠ EmptyString → PyStr.occurs old rest = false →
  PyStr.replace old new (old +:+ rest) = new +:+ rest.
Proof.
  intros Hold Habs. unfold PyStr.replace.
  destruct old as [|c o] eqn:E; [done|].
  rewrite replace_go_prefix by done. by rewrite replace_go_absent.
Qed.

(** With a one-character [old] every character is either kept or replaced. *)
Lemma replace_go_char (c : ascii) (new s : string) :
  PyStr.replace_go (String c EmptyString) new 0 s
  = match s with
    | EmptyString => EmptyString
    | String a s' =>
        if bool_decide (c = a)
        then new +:+ PyStr.replace_go (String c EmptyString) new 0 s'
        else String a (PyStr.replace_go (String c EmptyString) new 0 s')
    end.
Proof.
  destruct s as [|a s]; [done|]. cbn [PyStr.replace_go].
  rewrite prefix_cons, prefix_empty, andb_true_r. by case_bool_decide.
Qed.

Lemma split_nonempty (sep : ascii) (s : string) : PyStr.split sep s ≠ [].
Proof.
  induction s as [|c s IH]; [done|]. cbn.
  case_bool_decide; [done|]. by destruct (PyStr.split sep s).
Qed.

Lemma hd_split_cons (sep c : ascii) (s : string) :
  hd EmptyString (PyStr.split sep (String c s))
  = if bool_decide (c = sep) then EmptyString
    else String c (hd EmptyString (PyStr.split sep s)).
Proof.
  cbn. case_bool_decide; [done|].
  pose proof (split_nonempty sep s). by destruct (PyStr.split sep s).
Qed.

End string_facts.

(** * The dotfile path mapping *)

(** C1. For every absolute path [P] (a string that starts with the
    separator), replacing its leading separator with a colon and joining the
    result to the backup root gives a source path from which the second loop
    computes the destination string [P] again: the prefix made of the backup
    root and the colon is stripped and one separator is put in front. *)
Theorem decode_encode_absolute (dots_path home_path P : string) :
  PyStr.startswith P "/" = true →
  dest_of_source dots_path home_path (real_path_dotfile dots_path P) = P.
Proof.
  intros HP.
  unfold real_path_dotfile, encode_identifier, dest_of_source, abs_path_start.
  rewrite HP, os_path_join_colon, startswith_app, slice_from_app.
  symmetry. by apply (startswith_cons_inv P "/"%char).
Qed.

Lemma decode_encode_absolute_witness :
  dest_of_source "/backup" "/home/u" (real_path_dotfile "/backup" "/etc/hosts")
  = "/etc/hosts".
Proof. apply decode_encode_absolute. reflexivity. Defined.

(** The end-to-end example of the absolute case, down to the [Path] pair. *)
Example absolute_example :
  full_path_dotfiles_to_reinstall "/backup" "/home/u"
    [real_path_dotfile "/backup" "/etc/hosts"]
  = [(pathlib.of_str "/backup/:etc/hosts", pathlib.of_str "/etc/hosts")].
Proof. reflexivity. Qed.

(** [Path(dest)] then normalises the string: a repeated separator or a
    single-dot component of [P] is not kept in the pair. *)
Example absolute_example_normalised :
  dest_of_source "/backup" "/home/u" (real_path_dotfile "/backup" "/etc//hosts")
  = "/etc//hosts"
  ∧ pathlib.str (pathlib.of_str "/etc//hosts") = "/etc/hosts".
Proof. done. Qed.

(** A source that starts with the backup root, does not continue with the
    colon and does not contain the backup root a second time is sent to the
    home path followed by a separator and the rest of the source. *)
Lemma dest_of_source_home_relative (dots_path home_path rest : string) :
  dots_path ≠ EmptyString →
  PyStr.startswith (dots_path +:+ rest) (abs_path_start dots_path) = false →
  PyStr.occurs dots_path rest = false →
  dest_of_source dots_path home_path (dots_path +:+ rest)
  = home_path +:+ "/" +:+ rest.
Proof.
  intros Hne Hrel Habs. unfold dest_of_source. rewrite Hrel.
  rewrite replace_prefix_once by done. by rewrite str_app_assoc.
Qed.

(** The home-relative example: [/backup/.vimrc] goes to [/home/u/.vimrc]. *)
Example home_relative_example :
  pathlib.str (pathlib.of_str (dest_of_source "/backup" "/home/u" "/backup/.vimrc"))
  = "/home/u/.vimrc".
Proof. reflexivity. Qed.

(** C2. The destination of a home-relative source is computed with
    [str.replace], which substitutes every occurrence of the backup root and
    not only the prefix: the source [/backup/.config/backup/x], whose path
    relative to the backup root does not start with the colon, is sent to
    [/home/u/.config/home/u/x] and not to the home root followed by the
    source stripped of the backup root, [/home/u/.config/backup/x]. *)
Theorem home_relative_dest_substitutes_every_occurrence :
  let dots_path := "/backup" in
  let home_path := "/home/u" in
  let source := "/backup/.config/backup/x" in
  let stripped := PyStr.slice_from (String.length dots_path) source in
  PyStr.startswith source dots_path = true
  ∧ PyStr.startswith stripped ":" = false
  ∧ PyStr.startswith stripped "/:" = false
  ∧ pathlib.str (pathlib.of_str (dest_of_source dots_path home_path source))
    = "/home/u/.config/home/u/x"
  ∧ home_path +:+ stripped = "/home/u/.config/backup/x"
  ∧ pathlib.str (pathlib.of_str (dest_of_source dots_path home_path source))
    ≠ home_path +:+ stripped.
Proof. repeat split; done. Qed.

(** * Reasoning on computations *)

Section computations.
Context {W : Type} `{!Collaborators W}.

Lemma confined_ret {A} (P : event → Prop) (a : A) : confined (W:=W) P (ret a).
Proof. intros st. exists []. by rewrite app_nil_r. Qed.

Lemma confined_raise {A} (P : event → Prop) (e : exn) :
  confined (W:=W) (A:=A) P (raise e).
Proof. intros st. exists []. by rewrite app_nil_r. Qed.

Lemma confined_emit (P : event → Prop) (e : event) :
  P e → confined (W:=W) P (emit e).
Proof. intros He st. exists [e]. split; [done|by constructor]. Qed.

Lemma confined_query {A} (P : event → Prop) (f : W → A) (ev : A → event) :
  (∀ r, P (ev r)) → confined P (query f ev).
Proof.
  intros He st. exists [ev (f (world st))]. split; [done|by constructor].
Qed.

Lemma confined_action {A} (P : event → Prop) (f : W → W * A)
    (ev : A → event) :
  (∀ r, P (ev r)) → confined P (action f ev).
Proof.
  intros He st. unfold action. destruct (f (world st)) as [w r].
  exists [ev r]. split; [done|by constructor].
Qed.

Lemma confined_bind {A B} (P : event → Prop) (m : Py W A) (f : A → Py W B) :
  confined P m → (∀ a, confined P (f a)) → confined P (bind m f).
Proof.
  intros Hm Hf st. destruct (Hm st) as (evs & Ht & HP). unfold bind.
  destruct (m st) as [[a|e] st1]; cbn in *.
  - destruct (Hf a st1) as (evs' & Ht' & HP').
    exists (evs ++ evs'). rewrite Ht', Ht, app_assoc.
    split; [done|by apply Forall_app].
  - by exists evs.
Qed.

Lemma confined_check (P : event → Prop) (r : option exn) :
  confined (W:=W) P (check r).
Proof. destruct r; [apply confined_raise|apply confined_ret]. Qed.

Lemma confined_for_loop {A S} (P : event → Prop) (body : S → A → Py W S)
    (l : list A) (acc : S) :
  (∀ acc x, confined P (body acc x)) → confined P (for_loop body l acc).
Proof.
  intros Hbody. revert acc. induction l as [|x l IH]; intros acc; cbn.
  - apply confined_ret.
  - by apply confined_bind.
Qed.

Lemma keeps_world_ret {A} (a : A) : keeps_world (W:=W) (ret a).
Proof. done. Qed.

Lemma keeps_world_raise {A} (e : exn) : keeps_world (W:=W) (A:=A) (raise e).
Proof. done. Qed.

Lemma keeps_world_emit (e : event) : keeps_world (W:=W) (emit e).
Proof. done. Qed.

Lemma keeps_world_query {A} (f : W → A) (ev : A → event) :
  keeps_world (query f ev).
Proof. done. Qed.

Lemma keeps_world_bind {A B} (m : Py W A) (f : A → Py W B) :
  keeps_world m → (∀ a, keeps_world (f a)) → keeps_world (bind m f).
Proof.
  intros Hm Hf st. specialize (Hm st). unfold bind.
  destruct (m st) as [[a|e] st1]; cbn in *; [|done]. by rewrite Hf.
Qed.

Lemma keeps_world_check (r : option exn) : keeps_world (W:=W) (check r).
Proof. by destruct r. Qed.

Lemma keeps_world_for_loop {A S} (body : S → A → Py W S) (l : list A) (acc : S) :
  (∀ acc x, keeps_world (body acc x)) → keeps_world (for_loop body l acc).
Proof.
  intros Hbody. revert acc. induction l as [|x l IH]; intros acc; cbn.
  - apply keeps_world_ret.
  - by apply keeps_world_bind.
Qed.

End computations.

(** The calls and the loop bodies are unfolded on the way. *)
Create HintDb py discriminated.
#[global] Hint Unfold exit_if_dir_is_empty get_config evaluate_condition
  os_path_isfile os_path_isdir get_abs_path_subfiles os_listdir get_fonts_dir
  open_lines safe_mkdir copy copyfile copytree run_cmd run_cmd_if_no_dry_run
  vscode_body : py.

(** Break a goal on a computation into goals on its parts. *)
Ltac confine :=
  repeat first
    [ apply confined_emit; done
    | apply confined_query; done
    | apply confined_action; done
    | apply confined_check
    | apply confined_ret
    | apply confined_raise
    | apply confined_bind; [|intros ?]
    | apply confined_for_loop; intros ? ?
    | match goal with
      | |- confined _ (match ?x with _ => _ end) => destruct x
      end
    | progress autounfold with py ].

Ltac world_kept :=
  repeat first
    [ apply keeps_world_emit | apply keeps_world_query | apply keeps_world_ret
    | apply keeps_world_raise | apply keeps_world_check
    | apply keeps_world_bind; [|intros ?]
    | apply keeps_world_for_loop; intros ? ?
    | match goal with
      | |- keeps_world (match ?x with _ => _ end) => destruct x
      end
    | progress autounfold with py ].

(** * Dry runs *)

Section dry_run.
Context {W : Type} `{!Collaborators W}.

(** In a dry run the copy loop prints every pair, in order, and does nothing
    else: the world and the local variables are as before. *)
Lemma copy_loop_dry_run (pairs : list (Path * Path)) (loc : copy_locals)
    (st : state W) :
  for_loop (copy_body true) pairs loc st
  = (Normal loc, mkState (world st) (trace st ++ dry_run_infos pairs)).
Proof.
  revert st. induction pairs as [|[dot_source dot_dest] pairs IH]; intros st.
  - cbn. rewrite app_nil_r. by destruct st.
  - cbn [for_loop]. unfold bind at 1. cbn. rewrite IH. cbn.
    by rewrite <-app_assoc.
Qed.

Lemma gather_body_confined (dots_path : string) (acc : list string)
    (item : string * options) :
  confined (λ e, fs_mutation e = false ∧ error_report e = false)
           (gather_body dots_path acc item).
Proof.
  destruct item as [dotfile_path_from_config opts].
  unfold gather_body. confine.
Qed.

Lemma report_initial_locals (st : state W) :
  report initial_locals st
  = (Normal tt,
     log (Out_section_header "DOTFILE REINSTALLATION COMPLETED" Fore.BLUE) st).
Proof.
  unfold report, initial_locals. cbn.
  rewrite size_empty. cbn. unfold bind, ret, emit. by destruct st.
Qed.

Lemma reinstall_dots_sb_dry_run_confined (dots_path home_path : string) :
  confined (λ e, fs_mutation e = false ∧ error_report e = false)
           (reinstall_dots_sb dots_path home_path true).
Proof.
  unfold reinstall_dots_sb.
  apply confined_bind; [confine|intros _].
  apply confined_bind; [confine|intros _].
  apply confined_bind; [confine|intros cfg].
  apply confined_bind.
  { apply confined_for_loop. intros acc x. apply gather_body_confined. }
  intros sources st. unfold bind. rewrite copy_loop_dry_run.
  rewrite report_initial_locals. cbn.
  eexists (dry_run_infos _ ++ [_]). rewrite app_assoc. split; [done|].
  apply Forall_app. split.
  - unfold dry_run_infos. by apply Forall_fmap, Forall_true.
  - by repeat constructor.
Qed.

Lemma run_cmd_if_no_dry_run_dry (command : string) (st : state W) :
  run_cmd_if_no_dry_run command true st
  = (Normal 0%Z, log (Out_yellow_bold ("$ " +:+ command)) st).
Proof. done. Qed.

Lemma pm_body_dry_run_confined (packages_path pm : string) :
  confined (λ e, fs_mutation e = false ∧ process_invocation e = false)
           (pm_body packages_path true tt pm).
Proof.
  unfold pm_body. repeat case_bool_decide; confine.
Qed.

Lemma pm_body_dry_run_keeps_world (packages_path pm : string) :
  keeps_world (pm_body packages_path true tt pm).
Proof.
  unfold pm_body. repeat case_bool_decide; world_kept.
Qed.

Lemma reinstall_packages_sb_dry_run_confined (packages_path : string) :
  confined (λ e, fs_mutation e = false ∧ process_invocation e = false)
           (reinstall_packages_sb packages_path true).
Proof.
  unfold reinstall_packages_sb.
  repeat first [ apply pm_body_dry_run_confined | progress confine ].
Qed.

Lemma reinstall_packages_sb_dry_run_keeps_world (packages_path : string) :
  keeps_world (reinstall_packages_sb packages_path true).
Proof.
  unfold reinstall_packages_sb.
  repeat first [ apply pm_body_dry_run_keeps_world | progress world_kept ].
Qed.

(** C3. In dry-run mode the copy loop of [reinstall_dots_sb] reports every
    resolved pair and does nothing else: the world is unchanged, no
    directory is made, no file copied, the error counter stays 0 and the set
    of permission errors stays empty; the whole entry point makes no call
    that writes to the file system and prints no error report.  In the
    package phase [run_cmd_if_no_dry_run] prints the command and returns 0
    without running it, and the whole phase runs no command, writes nothing
    and leaves the world as it was. *)
Theorem dry_run_reports_without_mutation
    (dots_path home_path packages_path command : string)
    (pairs : list (Path * Path)) (st : state W) :
  for_loop (copy_body true) pairs initial_locals st
  = (Normal (mkLocals 0 ∅),
     mkState (world st) (trace st ++ dry_run_infos pairs))
  ∧ (∃ evs,
       trace (reinstall_dots_sb dots_path home_path true st).2 = trace st ++ evs
       ∧ Forall (λ e, fs_mutation e = false ∧ error_report e = false) evs)
  ∧ run_cmd_if_no_dry_run command true st
    = (Normal 0%Z,
       mkState (world st) (trace st ++ [Out_yellow_bold ("$ " +:+ command)]))
  ∧ (∃ evs,
       trace (reinstall_packages_sb packages_path true st).2 = trace st ++ evs
       ∧ Forall (λ e, fs_mutation e = false ∧ process_invocation e = false) evs
       ∧ world (reinstall_packages_sb packages_path true st).2 = world st).
Proof.
  split; [apply copy_loop_dry_run|]. split.
  { apply reinstall_dots_sb_dry_run_confined. }
  split; [apply run_cmd_if_no_dry_run_dry|].
  destruct (reinstall_packages_sb_dry_run_confined packages_path st)
    as (evs & Ht & HP).
  exists evs. repeat split; [done..|].
  apply reinstall_packages_sb_dry_run_keeps_world.
Qed.

End dry_run.

(** * Rules whose condition fails *)

Section conditions.
Context {W : Type} `{!Collaborators W}.

(** C8. A rule whose reinstall condition evaluates to false is skipped
    right after the evaluation: the list of files to reinstall is unchanged
    (the rule gives no pair), the only event is the call of the evaluator
    (no path is tested, no tree is walked, nothing is printed or copied) and
    the loop goes on with the rules that follow, from the world the
    evaluator left. *)
Theorem false_condition_skips_rule (dots_path : string)
    (dotfiles_to_reinstall : list string)
    (dotfile_path_from_config : string) (opts : options)
    (rest : list (string * options)) (st : state W) (w : W) :
  let condition := default EmptyString (reinstall_condition opts) in
  let st' :=
    mkState w
      (trace st ++ [Call_evaluate_condition condition "reinstall"
                      dotfile_path_from_config false]) in
  env_evaluate_condition (world st) condition "reinstall"
    dotfile_path_from_config = (w, false) →
  gather_body dots_path dotfiles_to_reinstall (dotfile_path_from_config, opts) st
  = (Normal dotfiles_to_reinstall, st')
  ∧ for_loop (gather_body dots_path) ((dotfile_path_from_config, opts) :: rest)
      dotfiles_to_reinstall st
    = for_loop (gather_body dots_path) rest dotfiles_to_reinstall st'.
Proof.
  intros condition st' Hcond.
  assert (gather_body dots_path dotfiles_to_reinstall
            (dotfile_path_from_config, opts) st
          = (Normal dotfiles_to_reinstall, st')) as Hbody.
  { unfold gather_body, bind, evaluate_condition, action.
    fold condition. by rewrite Hcond. }
  split; [done|]. cbn [for_loop]. unfold bind at 1. by rewrite Hbody.
Qed.

End conditions.

Lemma false_condition_skips_rule_witness :
  for_loop (gather_body "/backup")
    [(".vimrc", mkOptions (Some "false")); (".zshrc", mkOptions None)] []
    (Toy.start Toy.two_read_only)
  = for_loop (gather_body "/backup") [(".zshrc", mkOptions None)] []
      (mkState Toy.two_read_only
         [Call_evaluate_condition "false" "reinstall" ".vimrc" false]).
Proof.
  apply (false_condition_skips_rule "/backup" [] ".vimrc"
           (mkOptions (Some "false")) [(".zshrc", mkOptions None)]
           (Toy.start Toy.two_read_only) Toy.two_read_only).
  reflexivity.
Defined.

(** * The copy loop *)

Section copy_loop.
Context {W : Type} `{!Collaborators W}.

(** The message names the parent and the destination. *)
Lemma parent_is_file_message_names (parent_dir dot_dest : Path) :
  ∃ a b c,
    parent_is_file_message parent_dir dot_dest
    = a +:+ pathlib.str parent_dir +:+ b +:+ pathlib.str dot_dest +:+ c.
Proof.
  exists (Fore.RED +:+ Style.BRIGHT +:+ "ERROR: " +:+ Style.NORMAL),
    (Style.BRIGHT
     +:+ " is a file, however, this reinstallation process attempts to create "
     +:+ Style.NORMAL),
    (Style.BRIGHT
     +:+ ", which would use that path as a directory. You will have to manually remediate this issue (likely by renaming or moving "
     +:+ Style.NORMAL +:+ pathlib.str (pathlib.parent dot_dest)
     +:+ Style.BRIGHT +:+ ")" +:+ Style.NORMAL +:+ Style.RESET_ALL).
  unfold parent_is_file_message. by rewrite !str_app_assoc.
Qed.

Lemma copy_body_parent_is_file (loc : copy_locals)
    (dot_source dot_dest : Path) (st : state W) :
  env_isfile (world st) (pathlib.str (pathlib.parent dot_dest)) = true →
  copy_body false loc (dot_source, dot_dest) st
  = (Normal (mkLocals (S (reinstallation_error_count loc))
                      (files_with_permission_errors loc)),
     mkState (world st)
       (trace st ++ [Call_isfile (pathlib.str (pathlib.parent dot_dest)) true;
                     Out_print (parent_is_file_message
                                  (pathlib.parent dot_dest) dot_dest)])).
Proof.
  intros Hfile. unfold copy_body, bind, os_path_isfile, query.
  rewrite Hfile. unfold emit, ret, log. cbn. by rewrite <-app_assoc.
Qed.

(** C4. Outside a dry run, a pair whose destination has a parent that is a
    regular file adds exactly 1 to the error counter, prints the diagnostic,
    which names the parent and the destination, and is not copied: the only
    events are the test of the parent and the printed line, the world is
    unchanged, and the loop goes on with the pairs that follow. *)
Theorem parent_is_file_counts_and_skips (loc : copy_locals)
    (dot_source dot_dest : Path) (rest : list (Path * Path)) (st : state W) :
  let parent_dir := pathlib.parent dot_dest in
  let loc' := mkLocals (S (reinstallation_error_count loc))
                       (files_with_permission_errors loc) in
  let st' :=
    mkState (world st)
      (trace st ++ [Call_isfile (pathlib.str parent_dir) true;
                    Out_print (parent_is_file_message parent_dir dot_dest)]) in
  env_isfile (world st) (pathlib.str parent_dir) = true →
  copy_body false loc (dot_source, dot_dest) st = (Normal loc', st')
  ∧ for_loop (copy_body false) ((dot_source, dot_dest) :: rest) loc st
    = for_loop (copy_body false) rest loc' st'
  ∧ ∃ a b c,
      parent_is_file_message parent_dir dot_dest
      = a +:+ pathlib.str parent_dir +:+ b +:+ pathlib.str dot_dest +:+ c.
Proof.
  intros parent_dir loc' st' Hfile.
  pose proof (copy_body_parent_is_file loc dot_source dot_dest st Hfile)
    as Hbody.
  split; [done|]. split; [|apply parent_is_file_message_names].
  cbn [for_loop]. unfold bind at 1. by rewrite Hbody.
Qed.

Lemma copy_body_reaches_copy (loc : copy_locals) (dot_source dot_dest : Path)
    (st : state W) (w1 w2 : W) (r : option exn) :
  env_isfile (world st) (pathlib.str (pathlib.parent dot_dest)) = false →
  env_safe_mkdir (world st) (pathlib.str (pathlib.parent dot_dest))
    = (w1, None) →
  env_copy w1 (pathlib.str dot_source) (pathlib.str dot_dest) = (w2, r) →
  copy_body false loc (dot_source, dot_dest) st
  = match r with
    | None => (Normal loc, after_copy st dot_source dot_dest w2 r)
    | Some e =>
        match copy_handler loc e with
        | Some h => h (after_copy st dot_source dot_dest w2 r)
        | None => (Raised e, after_copy st dot_source dot_dest w2 r)
        end
    end.
Proof.
  intros Hfile Hmkdir Hcopy.
  unfold copy_body, bind, os_path_isfile, query. rewrite Hfile.
  unfold safe_mkdir, bind, action, log. cbn [world trace].
  rewrite Hmkdir. cbn [check ret world trace].
  unfold try_except, copy, bind, action. cbn [world trace]. rewrite Hcopy.
  unfold after_copy. rewrite <-!app_assoc. cbn [app].
  by destruct r as [e|].
Qed.

Lemma copy_body_mkdir_raises (loc : copy_locals) (dot_source dot_dest : Path)
    (st : state W) (w1 : W) (e : exn) :
  env_isfile (world st) (pathlib.str (pathlib.parent dot_dest)) = false →
  env_safe_mkdir (world st) (pathlib.str (pathlib.parent dot_dest))
    = (w1, Some e) →
  copy_body false loc (dot_source, dot_dest) st
  = (Raised e,
     mkState w1
       (trace st ++ [Call_isfile (pathlib.str (pathlib.parent dot_dest)) false;
                     Call_safe_mkdir (pathlib.str (pathlib.parent dot_dest))
                       (Some e)])).
Proof.
  intros Hfile Hmkdir.
  unfold copy_body, bind, os_path_isfile, query. rewrite Hfile.
  unfold safe_mkdir, bind, action, log. cbn [world trace].
  rewrite Hmkdir. cbn. by rewrite <-app_assoc.
Qed.

(** C5. When [copy] fails for a pair, a permission error adds the reported
    path to the set of permission errors and the loop goes on with the
    following pairs; a missing source is reported in red and the loop goes
    on; any other exception is not caught: it leaves the loop, and the
    entry point, at once, with the following pairs untouched. *)
Theorem copy_failure_absorbed_or_propagated (loc : copy_locals)
    (dot_source dot_dest : Path) (rest : list (Path * Path)) (st : state W)
    (w1 w2 : W) (e : exn) :
  let st2 := after_copy st dot_source dot_dest w2 (Some e) in
  env_isfile (world st) (pathlib.str (pathlib.parent dot_dest)) = false →
  env_safe_mkdir (world st) (pathlib.str (pathlib.parent dot_dest))
    = (w1, None) →
  env_copy w1 (pathlib.str dot_source) (pathlib.str dot_dest) = (w2, Some e) →
  for_loop (copy_body false) ((dot_source, dot_dest) :: rest) loc st
  = match e with
    | PermissionError filename =>
        for_loop (copy_body false) rest
          (mkLocals (reinstallation_error_count loc)
             ({[find_path_for_permission_error_reporting filename]}
              ∪ files_with_permission_errors loc))
          st2
    | FileNotFoundError message =>
        for_loop (copy_body false) rest loc
          (mkState (world st2)
             (trace st2 ++ [Out_red_bold ("ERROR: " +:+ message)]))
    | OtherException _ => (Raised e, st2)
    end.
Proof.
  intros st2 Hfile Hmkdir Hcopy. cbn [for_loop]. unfold bind at 1.
  rewrite (copy_body_reaches_copy _ _ _ _ _ _ _ Hfile Hmkdir Hcopy).
  by destruct e.
Qed.

(** The set of permission errors after a pair is the set before it and the
    reported paths of the permission errors that [copy] raised; the pair
    raises only through a call that the trace shows as unhandled. *)
Lemma copy_body_accumulates (loc : copy_locals) (pair : Path * Path)
    (st : state W) :
  ∃ evs,
    trace (copy_body false loc pair st).2 = trace st ++ evs ∧
    match (copy_body false loc pair st).1 with
    | Normal loc' =>
        files_with_permission_errors loc'
        = list_to_set (find_path_for_permission_error_reporting
                         <$> permission_denied evs)
          ∪ files_with_permission_errors loc
    | Raised _ => existsb unhandled evs = true
    end.
Proof.
  destruct pair as [dot_source dot_dest].
  destruct (env_isfile (world st) (pathlib.str (pathlib.parent dot_dest)))
    eqn:Hfile.
  { rewrite copy_body_parent_is_file by done. eexists. split; [done|].
    cbn. set_solver. }
  destruct (env_safe_mkdir (world st) (pathlib.str (pathlib.parent dot_dest)))
    as [w1 [e|]] eqn:Hmkdir.
  { erewrite copy_body_mkdir_raises by done. eexists. by split. }
  destruct (env_copy w1 (pathlib.str dot_source) (pathlib.str dot_dest))
    as [w2 r] eqn:Hcopy.
  rewrite (copy_body_reaches_copy _ _ _ _ _ _ _ Hfile Hmkdir Hcopy).
  destruct r as [[filename|message|description]|]; cbn.
  - eexists. split; [done|]. cbn. set_solver.
  - eexists [_; _; _; _]. rewrite <-app_assoc. split; [done|]. cbn. set_solver.
  - eexists. by split.
  - eexists. split; [done|]. cbn. set_solver.
Qed.

Lemma copy_loop_accumulates (pairs : list (Path * Path)) (loc : copy_locals)
    (st : state W) :
  ∃ evs,
    trace (for_loop (copy_body false) pairs loc st).2 = trace st ++ evs ∧
    match (for_loop (copy_body false) pairs loc st).1 with
    | Normal loc' =>
        files_with_permission_errors loc'
        = list_to_set (find_path_for_permission_error_reporting
                         <$> permission_denied evs)
          ∪ files_with_permission_errors loc
    | Raised _ => existsb unhandled evs = true
    end.
Proof.
  revert loc st. induction pairs as [|pair pairs IH]; intros loc st.
  { exists []. cbn. rewrite app_nil_r. split; [done|set_solver]. }
  cbn [for_loop]. unfold bind at 1 2.
  destruct (copy_body_accumulates loc pair st) as (evs1 & Ht1 & H1).
  destruct (copy_body false loc pair st) as [[loc1|e] st1]; cbn in *.
  - destruct (IH loc1 st1) as (evs2 & Ht2 & H2).
    exists (evs1 ++ evs2). rewrite Ht2, Ht1, app_assoc. split; [done|].
    destruct (for_loop (copy_body false) pairs loc1 st1).1.
    + rewrite H2, H1. unfold permission_denied.
      rewrite omap_app, fmap_app, list_to_set_app_L. set_solver.
    + rewrite existsb_app, H2. apply orb_true_r.
  - by exists evs1.
Qed.



End copy_loop.

Lemma parent_is_file_counts_and_skips_witness :
  env_isfile Toy.config_is_a_file "/home/u/.config" = true
  ∧ (for_loop (copy_body false)
       [(pathlib.of_str "/backup/.config/app.toml",
         pathlib.of_str "/home/u/.config/app.toml")]
       initial_locals (Toy.start Toy.config_is_a_file)).1
    = Normal (mkLocals 1 ∅).
Proof.
  split; [reflexivity|].
  destruct (parent_is_file_counts_and_skips initial_locals
              (pathlib.of_str "/backup/.config/app.toml")
              (pathlib.of_str "/home/u/.config/app.toml") []
              (Toy.start Toy.config_is_a_file)) as (_ & Hloop & _);
    [reflexivity|].
  rewrite Hloop. reflexivity.
Defined.

Lemma copy_failure_absorbed_or_propagated_witness :
  let dot_source := pathlib.of_str "/backup/.vimrc" in
  let dot_dest := pathlib.of_str "/home/u/.vimrc" in
  let w1 := (Toy.mkdir Toy.two_read_only "/home/u").1 in
  for_loop (copy_body false) [(dot_source, dot_dest)] initial_locals
    (Toy.start Toy.two_read_only)
  = (Normal (mkLocals 0 ({["/home/u/.vimrc"]} ∪ ∅)),
     after_copy (Toy.start Toy.two_read_only) dot_source dot_dest w1
       (Some (PermissionError "/home/u/.vimrc"))).
Proof.
  intros dot_source dot_dest w1.
  etrans.
  - apply (copy_failure_absorbed_or_propagated initial_locals dot_source
             dot_dest [] (Toy.start Toy.two_read_only) w1 w1
             (PermissionError "/home/u/.vimrc")); reflexivity.
  - reflexivity.
Defined.


(** * The package phase *)

Section packages.
Context {W : Type} `{!Collaborators W}.

(** Replacing hyphens by spaces gives a string without a space only when
    there was no hyphen, and then nothing changed. *)
Lemma replace_hyphen_without_space (s k : string) :
  PyStr.contains_char " "%char k = false →
  PyStr.replace "-" " " s = k → s = k.
Proof.
  unfold PyStr.replace. revert k.
  induction s as [|c s IH]; intros k Hk; [done|].
  rewrite replace_go_char. case_bool_decide as Hc.
  - intros <-. cbn in Hk. by case_bool_decide.
  - destruct k as [|a k]; [done|]. intros [= -> Hrest].
    cbn in Hk. apply orb_false_iff in Hk as [_ Hk]. f_equal. by apply IH.
Qed.

Lemma known_managers_plain :
  Forall (λ k, PyStr.contains_char " "%char k = false
               ∧ PyStr.contains_char "-"%char k = false
               ∧ PyStr.replace "-" " " k = k) known_managers.
Proof. by repeat constructor. Qed.

(** A file is recognised exactly when its first token is a known manager. *)
Lemma manager_recognised (file : string) :
  PyStr.in_list (manager_of file) known_managers = true
  ↔ first_token file ∈ known_managers.
Proof.
  unfold PyStr.in_list, manager_of. rewrite bool_decide_eq_true.
  pose proof known_managers_plain as Hplain.
  rewrite Forall_forall in Hplain. split; intros Hin.
  - destruct (Hplain _ Hin) as (Hspace & _ & _).
    by rewrite (replace_hyphen_without_space (first_token file) _ Hspace
                  eq_refl) at 1.
  - destruct (Hplain _ Hin) as (_ & _ & ->). done.
Qed.

Lemma elem_of_find_package_mgrs (listing : list string) (pm : string) :
  pm ∈ find_package_mgrs listing
  ↔ ∃ file, file ∈ listing ∧ first_token file = pm ∧ pm ∈ known_managers.
Proof.
  unfold find_package_mgrs.
  enough (∀ acc : gset string,
    pm ∈ foldl (λ (package_mgrs : gset string) file,
                  if PyStr.in_list (manager_of file) known_managers
                  then {[first_token file]} ∪ package_mgrs
                  else package_mgrs) acc listing
    ↔ pm ∈ acc ∨ ∃ file, file ∈ listing ∧ first_token file = pm
                         ∧ pm ∈ known_managers) as Hgen.
  { rewrite Hgen. set_solver. }
  induction listing as [|file listing IH]; intros acc; cbn [foldl].
  { set_solver. }
  rewrite IH.
  destruct (PyStr.in_list (manager_of file) known_managers) eqn:Hrec.
  - apply manager_recognised in Hrec. set_solver.
  - assert (first_token file ∉ known_managers) as Hnot.
    { intros Hin%manager_recognised. congruence. }
    set_solver.
Qed.

(** On a recognised file the token before the first underscore is also the
    token before the first underscore or hyphen. *)
Lemma spec_leading_token_without_hyphen (file : string) :
  PyStr.contains_char "-"%char (first_token file) = false →
  spec_leading_token file = first_token file.
Proof.
  unfold first_token. induction file as [|c file IH]; [done|].
  rewrite hd_split_cons. cbn [spec_leading_token].
  case_bool_decide as Hu; [done|]. cbn [orb PyStr.contains_char].
  case_bool_decide as Hh; [done|]. cbn [orb]. intros Hno. f_equal.
  by apply IH.
Qed.

Lemma spec_leading_token_recognised (file : string) :
  first_token file ∈ known_managers →
  spec_leading_token file = first_token file.
Proof.
  intros Hin. apply spec_leading_token_without_hyphen.
  pose proof known_managers_plain as Hplain.
  rewrite Forall_forall in Hplain. by destruct (Hplain _ Hin) as (_ & ? & _).
Qed.

Lemma find_package_mgrs_none (listing : list string) :
  (∀ file, file ∈ listing → first_token file ∉ known_managers) →
  find_package_mgrs listing = ∅.
Proof.
  intros Hnone. apply set_eq. intros pm.
  rewrite elem_of_find_package_mgrs. set_solver.
Qed.

(** A directory without a recognised list: no command is run. *)
Lemma reinstall_packages_sb_none (packages_path : string) (dry_run : bool)
    (st : state W) :
  (∀ file, file ∈ env_listdir (world st) packages_path →
           first_token file ∉ known_managers) →
  ∃ evs,
    trace (reinstall_packages_sb packages_path dry_run st).2 = trace st ++ evs
    ∧ Forall (λ e, process_invocation e = false) evs.
Proof.
  intros Hnone%find_package_mgrs_none.
  unfold reinstall_packages_sb, bind, exit_if_dir_is_empty, bind, query,
    os_listdir, query.
  cbn [world trace log].
  destruct (env_exit_if_dir_is_empty (world st) packages_path "package");
    cbn.
  { eexists. split; [done|]. by repeat constructor. }
  rewrite Hnone, elements_empty. cbn. rewrite <-!app_assoc. cbn.
  eexists. split; [done|]. by repeat constructor.
Qed.

(** The run on a directory that holds [brew_list.txt] and
    [unknownmgr_list.txt]. *)
Lemma reinstall_packages_sb_brew_and_unknown (packages_path : string)
    (st : state W) (w : W) (rc : Z) :
  let cmd := "brew bundle install --no-lock --file " +:+ packages_path
             +:+ "/brew_list.txt" in
  env_exit_if_dir_is_empty (world st) packages_path "package" = None →
  env_listdir (world st) packages_path
    = ["brew_list.txt"; "unknownmgr_list.txt"] →
  env_run_cmd (world st) cmd = (w, rc) →
  reinstall_packages_sb packages_path false st
  = (Normal tt,
     mkState w
       (trace st
        ++ [Call_exit_if_dir_is_empty packages_path "package" None;
            Out_section_header "REINSTALLING PACKAGES" Fore.BLUE;
            Call_listdir packages_path
              ["brew_list.txt"; "unknownmgr_list.txt"];
            Out_blue_bold "Package Manager Backups Found:";
            Out_yellow (tab +:+ "brew");
            Out_print EmptyString;
            Out_pkg_mgr_reinstall "brew";
            Call_run_cmd cmd rc;
            Out_section_header "PACKAGE REINSTALLATION COMPLETED"
              Fore.BLUE])).
Proof.
  intros cmd Hexit Hlist Hrun. unfold cmd in *. clear cmd.
  unfold reinstall_packages_sb, bind, exit_if_dir_is_empty, bind, query,
    os_listdir, query.
  cbn [world trace log]. rewrite Hexit. cbn. rewrite Hlist.
  replace (find_package_mgrs ["brew_list.txt"; "unknownmgr_list.txt"])
    with ({["brew"]} : gset string) by (by vm_compute).
  rewrite elements_singleton. cbn.
  unfold pm_body. rewrite (bool_decide_true ("brew" = "brew")) by done.
  unfold run_cmd_if_no_dry_run, run_cmd, action, bind, emit, ret, log.
  cbn. cbn in Hrun. rewrite Hrun. cbn.
  by rewrite <-!app_assoc.
Qed.

(** C7, as the code has it.  The identifier of a list file is its leading
    token before the first underscore; a manager is in [package_mgrs]
    exactly when it is such a token of a file of the directory and one of
    the eight known names, and on those files it is also the token before
    the first underscore or hyphen.  A directory without a recognised file
    runs no command.  With the files [brew_list.txt] and
    [unknownmgr_list.txt] the only manager is [brew], its command is run
    once, and the other file gives no command and no error. *)
Theorem package_managers_recognised_by_first_token (packages_path : string)
    (listing : list string) (pm : string) (st : state W) (w : W) (rc : Z) :
  let cmd := "brew bundle install --no-lock --file " +:+ packages_path
             +:+ "/brew_list.txt" in
  (pm ∈ find_package_mgrs listing
   ↔ ∃ file, file ∈ listing ∧ first_token file = pm ∧ pm ∈ known_managers)
  ∧ (∀ file, first_token file ∈ known_managers →
             spec_leading_token file = first_token file)
  ∧ ((∀ file, file ∈ env_listdir (world st) packages_path →
              first_token file ∉ known_managers) →
     ∃ evs,
       trace (reinstall_packages_sb packages_path false st).2 = trace st ++ evs
       ∧ Forall (λ e, process_invocation e = false) evs)
  ∧ (env_exit_if_dir_is_empty (world st) packages_path "package" = None →
     env_listdir (world st) packages_path
       = ["brew_list.txt"; "unknownmgr_list.txt"] →
     env_run_cmd (world st) cmd = (w, rc) →
     find_package_mgrs (env_listdir (world st) packages_path) = {["brew"]}
     ∧ reinstall_packages_sb packages_path false st
       = (Normal tt,
          mkState w
            (trace st
             ++ [Call_exit_if_dir_is_empty packages_path "package" None;
                 Out_section_header "REINSTALLING PACKAGES" Fore.BLUE;
                 Call_listdir packages_path
                   ["brew_list.txt"; "unknownmgr_list.txt"];
                 Out_blue_bold "Package Manager Backups Found:";
                 Out_yellow (tab +:+ "brew");
                 Out_print EmptyString;
                 Out_pkg_mgr_reinstall "brew";
                 Call_run_cmd cmd rc;
                 Out_section_header "PACKAGE REINSTALLATION COMPLETED"
                   Fore.BLUE]))).
Proof.
  intros cmd. split; [apply elem_of_find_package_mgrs|].
  split; [apply spec_leading_token_recognised|].
  split; [apply reinstall_packages_sb_none|].
  intros Hexit Hlist Hrun. split.
  - rewrite Hlist. by vm_compute.
  - by apply reinstall_packages_sb_brew_and_unknown.
Qed.

End packages.

(** C7, as stated, fails on [pip-tools_list.txt]: the token before the
    first underscore or hyphen is [pip], a known manager, but the code
    derives [pip-tools], tests [pip tools] and recognises nothing. *)
Lemma leading_token_counterexample :
  let file := "pip-tools_list.txt" in
  spec_leading_token file = "pip"
  ∧ "pip" ∈ known_managers
  ∧ first_token file = "pip-tools"
  ∧ manager_of file = "pip tools"
  ∧ manager_of file ≠ spec_leading_token file
  ∧ first_token file ≠ spec_leading_token file
  ∧ find_package_mgrs [file] = ∅.
Proof.
  cbn zeta. repeat split; try done.
  unfold known_managers. set_solver.
Qed.

Lemma package_managers_recognised_by_first_token_witness :
  find_package_mgrs (env_listdir Toy.two_lists "/backup/packages")
  = {["brew"]}
  ∧ (reinstall_packages_sb "/backup/packages" false
       (Toy.start Toy.two_lists)).1 = Normal tt.
Proof.
  destruct (package_managers_recognised_by_first_token "/backup/packages"
              [] "brew" (Toy.start Toy.two_lists) Toy.two_lists 0%Z)
    as (_ & _ & _ & Hexample).
  destruct Hexample as [Hmgrs Hrun]; [reflexivity..|].
  split; [exact Hmgrs|]. by rewrite Hrun.
Defined.

(** * Fonts and configuration files: the quoted paths *)

Section quoting.
Context {W : Type} `{!Collaborators W}.

Lemma length_replace_quote (s : string) :
  String.length s
  ≤ String.length (PyStr.replace "'" shlex.escaped_quote s).
Proof.
  unfold PyStr.replace. induction s as [|c s IH]; [done|].
  rewrite replace_go_char. case_bool_decide.
  - rewrite str_length_app. cbn [String.length].
    change (String.length shlex.escaped_quote) with 5. lia.
  - cbn [String.length]. lia.
Qed.

(** A string with a character outside the safe class is wrapped in single
    quotes, which makes it another string. *)
Lemma quote_unsafe (s : string) :
  shlex.find_unsafe s = true →
  shlex.quote s = "'" +:+ PyStr.replace "'" shlex.escaped_quote s +:+ "'"
  ∧ shlex.quote s ≠ s.
Proof.
  intros Hunsafe.
  assert (shlex.quote s
          = "'" +:+ PyStr.replace "'" shlex.escaped_quote s +:+ "'") as Hq.
  { unfold shlex.quote. destruct s; [done|]. by rewrite Hunsafe. }
  split; [done|]. intros Heq. rewrite Hq in Heq.
  apply (f_equal String.length) in Heq.
  rewrite !str_length_app in Heq. cbn [String.length] in Heq.
  pose proof (length_replace_quote s). lia.
Qed.

(** C9. Outside a dry run [reinstall_fonts_sb] hands to [copyfile] the
    quoted font path as the source and the quoted [dest_path], itself
    already a quoted path, as the destination.  For a font path with a
    character that quoting wraps, the source argument is the path between
    single quotes, a string other than the path of the font: the copy works
    on that string as a path. *)
Theorem fonts_copied_by_quoted_names (font : string) (st : state W) (w : W)
    (r : option exn) :
  let fonts_dir := env_get_fonts_dir (world st) in
  let dest_path :=
    shlex.quote (os_path_join fonts_dir
                   (List.last (PyStr.split "/"%char font) EmptyString)) in
  shlex.find_unsafe font = true →
  env_copyfile (world st) (shlex.quote font) (shlex.quote dest_path) = (w, r) →
  font_body false tt font st
  = (match r with None => Normal tt | Some e => Raised e end,
     mkState w
       (trace st ++ [Call_get_fonts_dir fonts_dir;
                     Call_copyfile (shlex.quote font) (shlex.quote dest_path) r]))
  ∧ shlex.quote font
    = "'" +:+ PyStr.replace "'" shlex.escaped_quote font +:+ "'"
  ∧ shlex.quote font ≠ font.
Proof.
  intros fonts_dir dest_path Hunsafe Hcopy.
  split; [|by apply quote_unsafe].
  unfold font_body, bind, get_fonts_dir, query, copyfile, bind, action.
  cbn [world trace log]. fold fonts_dir. fold dest_path. rewrite Hcopy.
  rewrite <-app_assoc. by destruct r.
Qed.

(** C10, as the code has it.  [reinstall_configs_sb] tests and copies the
    quoted source path.  For a mapping whose source path has a character
    that quoting wraps, the quoted path is another string than the source
    path; when no directory and no file exists under the quoted name, the
    entry is skipped after the two tests, whatever exists at the source
    path: nothing is copied, nothing is raised and the world is as
    before. *)
Theorem quoted_config_source_skipped (configs_path dest_path backup_loc : string)
    (st : state W) :
  let source_path := shlex.quote (os_path_join configs_path backup_loc) in
  shlex.find_unsafe (os_path_join configs_path backup_loc) = true →
  env_isdir (world st) source_path = false →
  env_isfile (world st) source_path = false →
  source_path ≠ os_path_join configs_path backup_loc
  ∧ config_body configs_path false tt (dest_path, backup_loc) st
    = (Normal tt,
       mkState (world st)
         (trace st ++ [Call_isdir source_path false;
                       Call_isfile source_path false])).
Proof.
  intros source_path Hunsafe Hdir Hfile.
  split; [by apply quote_unsafe|].
  unfold config_body, bind, os_path_isdir, os_path_isfile, query.
  fold source_path. cbn [world trace log]. rewrite Hdir. cbn. rewrite Hfile.
  unfold ret, log. cbn. by rewrite <-app_assoc.
Qed.

End quoting.

Lemma fonts_copied_by_quoted_names_witness :
  let font := "/backup/fonts/My Font.ttf" in
  shlex.find_unsafe font = true
  ∧ shlex.quote font = "'/backup/fonts/My Font.ttf'"
  ∧ new_events (Toy.start Toy.two_read_only)
      (font_body false tt font (Toy.start Toy.two_read_only)).2
    = [Call_get_fonts_dir "/home/u/.fonts";
       Call_copyfile "'/backup/fonts/My Font.ttf'"
         (shlex.quote "'/home/u/.fonts/My Font.ttf'")
         (Some (FileNotFoundError
                  "[Errno 2] No such file or directory: ''/backup/fonts/My Font.ttf''"))].
Proof.
  intros font. split; [reflexivity|]. split; [reflexivity|].
  destruct (fonts_copied_by_quoted_names font (Toy.start Toy.two_read_only)
              Toy.two_read_only
              (Some (FileNotFoundError
                       "[Errno 2] No such file or directory: ''/backup/fonts/My Font.ttf''")))
    as (Hbody & _); [reflexivity..|].
  rewrite Hbody. reflexivity.
Defined.

(** C10, as stated, fails when something exists under the quoted name: the
    mapped source path [/backup/configs/my file] needs quoting, the test on
    the quoted name finds a regular file, and that file is copied. *)
Lemma quoted_config_source_counterexample :
  let st := Toy.start Toy.quoted_name_exists in
  shlex.find_unsafe (os_path_join "/backup/configs" "my file") = true
  ∧ config_body "/backup/configs" false tt ("/home/u/.my file", "my file") st
    = (Normal tt,
       mkState
         (Toy.copy_file Toy.quoted_name_exists "'/backup/configs/my file'"
            "'/home/u/.my file'").1
         [Call_isdir "'/backup/configs/my file'" false;
          Call_isfile "'/backup/configs/my file'" true;
          Call_copyfile "'/backup/configs/my file'" "'/home/u/.my file'" None])
  ∧ existsb fs_mutation
      (trace (reinstall_configs_sb "/backup/configs" false st).2) = true.
Proof. by cbn zeta. Qed.

Lemma quoted_config_source_skipped_witness :
  let st := Toy.start Toy.two_read_only in
  shlex.quote "/backup/configs/my file" ≠ "/backup/configs/my file"
  ∧ config_body "/backup/configs" false tt ("/home/u/.my file", "my file") st
    = (Normal tt,
       mkState Toy.two_read_only
         [Call_isdir "'/backup/configs/my file'" false;
          Call_isfile "'/backup/configs/my file'" false]).
Proof.
  apply (quoted_config_source_skipped "/backup/configs" "/home/u/.my file"
           "my file" (Toy.start Toy.two_read_only)); reflexivity.
Defined.

(** * More on the dotfile path mapping *)

Section path_mapping.

Lemma encode_identifier_relative (x : string) :
  PyStr.startswith (encode_identifier x) "/" = false.
Proof.
  unfold encode_identifier. destruct (PyStr.startswith x "/") eqn:Hx; done.
Qed.

(** X1. Whatever the identifier of a rule, absolute or not, the path the
    first loop looks at starts with the backup root: the join never falls
    back to an absolute second argument. *)
Theorem real_path_dotfile_under_backup_root (dots_path ident : string) :
  PyStr.startswith (real_path_dotfile dots_path ident) dots_path = true
  ∧ ∃ rest, real_path_dotfile dots_path ident = dots_path +:+ rest.
Proof.
  assert (∃ rest, real_path_dotfile dots_path ident = dots_path +:+ rest)
    as [rest Hrest].
  { unfold real_path_dotfile, os_path_join.
    rewrite encode_identifier_relative. destruct (_ || _); eauto. }
  split; [|by exists rest]. rewrite Hrest. apply startswith_app.
Qed.

(** X2. Two identifiers are stored under the same name of the backup tree
    only when they are equal, or when one is an absolute path and the other
    is the same path with a colon in place of the leading separator. *)
Theorem encode_identifier_collisions (a b : string) :
  encode_identifier a = encode_identifier b →
  a = b ∨ ∃ r, (a = "/" +:+ r ∧ b = ":" +:+ r)
               ∨ (a = ":" +:+ r ∧ b = "/" +:+ r).
Proof.
  unfold encode_identifier.
  destruct (PyStr.startswith a "/") eqn:Ha,
           (PyStr.startswith b "/") eqn:Hb; intros Heq.
  - apply (startswith_cons_inv a "/"%char) in Ha.
    apply (startswith_cons_inv b "/"%char) in Hb.
    left. rewrite Ha, Hb. f_equal.
    by apply (inj (String.append ":")) in Heq.
  - apply (startswith_cons_inv a "/"%char) in Ha.
    right. exists (PyStr.slice_from 1 a). left. by rewrite <-Heq.
  - apply (startswith_cons_inv b "/"%char) in Hb.
    right. exists (PyStr.slice_from 1 b). right. by rewrite Heq.
  - by left.
Qed.

(** X3. A file found under the stored form of an absolute identifier [P]
    (the stored path followed by any remainder) is sent to [P] followed by
    the same remainder, whatever the home path. *)
Theorem absolute_rule_subfile_decodes (dots_path home_path P rest : string) :
  PyStr.startswith P "/" = true →
  dest_of_source dots_path home_path (real_path_dotfile dots_path P +:+ rest)
  = P +:+ rest.
Proof.
  intros HP.
  unfold real_path_dotfile, encode_identifier, dest_of_source, abs_path_start.
  rewrite HP, os_path_join_colon, str_app_assoc, startswith_app,
    slice_from_app.
  rewrite (startswith_cons_inv P "/"%char HP) at 2. done.
Qed.

Lemma split_app_sep (sep : ascii) (a b : string) :
  PyStr.split sep (a +:+ String sep b)
  = PyStr.split sep a ++ PyStr.split sep b.
Proof.
  induction a as [|c a IH]; cbn [String.append PyStr.split].
  - by rewrite bool_decide_true.
  - case_bool_decide; [by rewrite IH|]. rewrite IH.
    pose proof (split_nonempty sep a). by destruct (PyStr.split sep a).
Qed.

Lemma leading_app (c : ascii) (h x : string) :
  PyStr.leading c h < String.length h →
  PyStr.leading c (h +:+ x) = PyStr.leading c h.
Proof.
  induction h as [|a h IH]; cbn [PyStr.leading String.length String.append].
  - lia.
  - case_bool_decide; [|done]. intros Hlt. f_equal. apply IH. lia.
Qed.

(** A doubled separator after a prefix that is not made of separators only
    is one separator to [Path]. *)
Lemma of_str_doubled_separator (h r : string) :
  PyStr.leading "/"%char h < String.length h →
  pathlib.of_str (h +:+ "/" +:+ "/" +:+ r) = pathlib.of_str (h +:+ "/" +:+ r).
Proof.
  intros Hh. unfold pathlib.of_str. f_equal.
  - by rewrite !leading_app.
  - change (h +:+ "/" +:+ "/" +:+ r)
      with (h +:+ String "/"%char (String "/"%char r)).
    change (h +:+ "/" +:+ r) with (h +:+ String "/"%char r).
    rewrite !split_app_sep. cbn [PyStr.split].
    rewrite bool_decide_true by done.
    by rewrite !List.filter_app.
Qed.

(** X4. A source made of the backup root, a separator and a relative path
    that does not start with the colon and in which the backup root does not
    occur again gets, as a [Path], the home path followed by a separator
    and the relative path: the separator that the replacement adds is
    absorbed. *)
Theorem home_relative_pair (dots_path home_path rel : string) :
  dots_path ≠ EmptyString →
  PyStr.leading "/"%char home_path < String.length home_path →
  PyStr.startswith (dots_path +:+ "/" +:+ rel) (abs_path_start dots_path)
    = false →
  PyStr.occurs dots_path ("/" +:+ rel) = false →
  full_path_dotfiles_to_reinstall dots_path home_path
    [dots_path +:+ "/" +:+ rel]
  = [(pathlib.of_str (dots_path +:+ "/" +:+ rel),
      pathlib.of_str (home_path +:+ "/" +:+ rel))].
Proof.
  intros Hne Hhome Hrel Habs. unfold full_path_dotfiles_to_reinstall.
  cbn [fmap list_fmap]. do 2 f_equal.
  rewrite dest_of_source_home_relative by done.
  by apply of_str_doubled_separator.
Qed.

End path_mapping.

Lemma encode_identifier_collisions_witness :
  "/etc/hosts" = ":etc/hosts"
  ∨ ∃ r, ("/etc/hosts" = "/" +:+ r ∧ ":etc/hosts" = ":" +:+ r)
         ∨ ("/etc/hosts" = ":" +:+ r ∧ ":etc/hosts" = "/" +:+ r).
Proof. apply encode_identifier_collisions. reflexivity. Defined.

Lemma absolute_rule_subfile_decodes_witness :
  dest_of_source "/backup" "/home/u"
    (real_path_dotfile "/backup" "/etc/nginx" +:+ "/conf.d/site.conf")
  = "/etc/nginx" +:+ "/conf.d/site.conf".
Proof. apply absolute_rule_subfile_decodes. reflexivity. Defined.

Lemma home_relative_pair_witness :
  full_path_dotfiles_to_reinstall "/backup" "/home/u"
    ["/backup" +:+ "/" +:+ ".config/nvim/init.vim"]
  = [(pathlib.of_str ("/backup" +:+ "/" +:+ ".config/nvim/init.vim"),
      pathlib.of_str ("/home/u" +:+ "/" +:+ ".config/nvim/init.vim"))].
Proof.
  apply home_relative_pair;
    [discriminate|vm_compute; lia|reflexivity|reflexivity].
Defined.

(** * More on the dotfile run *)

Section dotfile_run.
Context {W : Type} `{!Collaborators W}.



Lemma copy_body_counts (loc : copy_locals) (pair : Path * Path)
    (st : state W) :
  ∃ evs,
    trace (copy_body false loc pair st).2 = trace st ++ evs ∧
    match (copy_body false loc pair st).1 with
    | Normal loc' =>
        reinstallation_error_count loc'
        = reinstallation_error_count loc
          + length (List.filter parent_is_file_hit evs)
    | Raised _ => True
    end.
Proof.
  destruct pair as [dot_source dot_dest].
  destruct (env_isfile (world st) (pathlib.str (pathlib.parent dot_dest)))
    eqn:Hfile.
  { rewrite copy_body_parent_is_file by done. eexists. split; [done|].
    cbn. lia. }
  destruct (env_safe_mkdir (world st) (pathlib.str (pathlib.parent dot_dest)))
    as [w1 [e|]] eqn:Hmkdir.
  { erewrite copy_body_mkdir_raises by done. eexists. by split. }
  destruct (env_copy w1 (pathlib.str dot_source) (pathlib.str dot_dest))
    as [w2 r] eqn:Hcopy.
  rewrite (copy_body_reaches_copy _ _ _ _ _ _ _ Hfile Hmkdir Hcopy).
  destruct r as [[filename|message|description]|]; cbn.
  - eexists. split; [done|]. cbn. lia.
  - eexists [_; _; _; _]. rewrite <-app_assoc. split; [done|]. cbn. lia.
  - eexists. by split.
  - eexists. split; [done|]. cbn. lia.
Qed.

Lemma copy_loop_counts (pairs : list (Path * Path)) (loc : copy_locals)
    (st : state W) :
  ∃ evs,
    trace (for_loop (copy_body false) pairs loc st).2 = trace st ++ evs ∧
    match (for_loop (copy_body false) pairs loc st).1 with
    | Normal loc' =>
        reinstallation_error_count loc'
        = reinstallation_error_count loc
          + length (List.filter parent_is_file_hit evs)
    | Raised _ => True
    end.
Proof.
  revert loc st. induction pairs as [|pair pairs IH]; intros loc st.
  { exists []. cbn. rewrite app_nil_r. split; [done|lia]. }
  cbn [for_loop]. unfold bind at 1 2.
  destruct (copy_body_counts loc pair st) as (evs1 & Ht1 & H1).
  destruct (copy_body false loc pair st) as [[loc1|e] st1]; cbn in *.
  - destruct (IH loc1 st1) as (evs2 & Ht2 & H2).
    exists (evs1 ++ evs2). rewrite Ht2, Ht1, app_assoc. split; [done|].
    destruct (for_loop (copy_body false) pairs loc1 st1).1; [|done].
    rewrite H2, H1, List.filter_app, length_app. lia.
  - by exists evs1.
Qed.

Lemma new_events_app (st st' : state W) (evs : list event) :
  trace st' = trace st ++ evs → new_events st st' = evs.
Proof. intros Ht. unfold new_events. by rewrite Ht, drop_app_length. Qed.

(** X6. When the copy loop runs to its end, the error counter has grown by
    the number of destinations whose parent was found to be a regular file,
    and the set of permission errors holds at least what it held before. *)
Theorem copy_loop_counter_and_set_grow (pairs : list (Path * Path))
    (loc loc' : copy_locals) (st : state W) :
  let run := for_loop (copy_body false) pairs loc st in
  run.1 = Normal loc' →
  reinstallation_error_count loc'
  = reinstallation_error_count loc
    + length (List.filter parent_is_file_hit (new_events st run.2))
  ∧ files_with_permission_errors loc ⊆ files_with_permission_errors loc'.
Proof.
  intros run Hrun.
  destruct (copy_loop_counts pairs loc st) as (evs & Ht & Hcount).
  destruct (copy_loop_accumulates pairs loc st) as (evs' & Ht' & Hacc).
  fold run in Ht, Hcount, Ht', Hacc. rewrite Hrun in Hcount, Hacc.
  rewrite (new_events_app _ _ _ Ht). split; [done|]. rewrite Hacc.
  set_solver.
Qed.

Lemma clean_events (evs : list event) :
  Forall (λ e, parent_is_file_hit e = false ∧ copy_failed e = false) evs →
  List.filter parent_is_file_hit evs = []
  ∧ permission_denied evs = []
  ∧ existsb unhandled evs = false.
Proof.
  induction 1 as [|e evs [Hhit Hfail] _ (IH1 & IH2 & IH3)]; [done|].
  unfold permission_denied in *. cbn. rewrite Hhit, IH1, IH2, IH3.
  destruct e; try done.
  - by destruct r.
  - by destruct r as [[]|].
Qed.

(** X7. A batch in which no parent is a regular file and no call of
    [safe_mkdir] or [copy] raises runs to its end with the counter at 0 and
    the set empty, and what follows the loop prints the closing header and
    nothing else. *)
Theorem clean_batch_reports_nothing (pairs : list (Path * Path))
    (st : state W) :
  let run := for_loop (copy_body false) pairs initial_locals st in
  Forall (λ e, parent_is_file_hit e = false ∧ copy_failed e = false)
         (new_events st run.2) →
  run.1 = Normal (mkLocals 0 ∅)
  ∧ report (mkLocals 0 ∅) run.2
    = (Normal tt,
       mkState (world run.2)
         (trace run.2
          ++ [Out_section_header "DOTFILE REINSTALLATION COMPLETED"
                Fore.BLUE])).
Proof.
  intros run Hclean. split; [|apply report_initial_locals].
  destruct (copy_loop_counts pairs initial_locals st) as (evs & Ht & Hcount).
  destruct (copy_loop_accumulates pairs initial_locals st)
    as (evs' & Ht' & Hacc).
  fold run in Ht, Hcount, Ht', Hacc.
  rewrite (new_events_app _ _ _ Ht) in Hclean.
  assert (evs' = evs) as -> by (rewrite Ht in Ht'; by simplify_list_eq).
  destruct (clean_events evs Hclean) as (Hhit & Hdenied & Hunhandled).
  destruct run.1 as [[count files]|e]; [|congruence].
  cbn in Hcount, Hacc. rewrite Hhit in Hcount. rewrite Hdenied in Hacc.
  cbn in Hcount, Hacc. f_equal. f_equal; [done|]. rewrite Hacc. set_solver.
Qed.

(** X8. An exception of [safe_mkdir], a permission error included, is not
    handled: the loop stops at that pair, the pairs that follow are not
    looked at and nothing is copied. *)
Theorem mkdir_failure_aborts_batch (loc : copy_locals)
    (dot_source dot_dest : Path) (rest : list (Path * Path)) (st : state W)
    (w1 : W) (e : exn) :
  env_isfile (world st) (pathlib.str (pathlib.parent dot_dest)) = false →
  env_safe_mkdir (world st) (pathlib.str (pathlib.parent dot_dest))
    = (w1, Some e) →
  for_loop (copy_body false) ((dot_source, dot_dest) :: rest) loc st
  = (Raised e,
     mkState w1
       (trace st ++ [Call_isfile (pathlib.str (pathlib.parent dot_dest)) false;
                     Call_safe_mkdir (pathlib.str (pathlib.parent dot_dest))
                       (Some e)])).
Proof.
  intros Hfile Hmkdir. cbn [for_loop]. unfold bind at 1.
  by rewrite (copy_body_mkdir_raises _ _ _ _ _ _ Hfile Hmkdir).
Qed.

(** X9. Two permission errors whose reported paths are the same count
    once: the batch runs to its end with a set of one path. *)
Theorem same_reported_path_counts_once (pairs : list (Path * Path))
    (st : state W) (f1 f2 : string) :
  let run := for_loop (copy_body false) pairs initial_locals st in
  permission_denied (new_events st run.2) = [f1; f2] →
  find_path_for_permission_error_reporting f1
  = find_path_for_permission_error_reporting f2 →
  existsb unhandled (new_events st run.2) = false →
  ∃ loc,
    run.1 = Normal loc
    ∧ files_with_permission_errors loc
      = {[find_path_for_permission_error_reporting f1]}
    ∧ size (files_with_permission_errors loc) = 1.
Proof.
  intros run Hdenied Hsame Hclean.
  destruct (copy_loop_accumulates pairs initial_locals st)
    as (evs & Ht & Hacc). fold run in Ht, Hacc.
  rewrite (new_events_app _ _ _ Ht) in Hdenied, Hclean.
  destruct run.1 as [loc|e]; [|congruence].
  rewrite Hdenied in Hacc. cbn in Hacc. rewrite <-Hsame in Hacc.
  assert (files_with_permission_errors loc
          = {[find_path_for_permission_error_reporting f1]}) as Hset
    by (rewrite Hacc; set_solver).
  exists loc. repeat split; [done|]. by rewrite Hset, size_singleton.
Qed.


End dotfile_run.

Lemma copy_loop_counter_and_set_grow_witness :
  reinstallation_error_count (mkLocals 1 ∅)
  = reinstallation_error_count initial_locals
    + length (List.filter parent_is_file_hit
                (new_events (Toy.start Toy.config_is_a_file)
                   (for_loop (copy_body false)
                      [(pathlib.of_str "/backup/.config/app.toml",
                        pathlib.of_str "/home/u/.config/app.toml")]
                      initial_locals (Toy.start Toy.config_is_a_file)).2))
  ∧ files_with_permission_errors initial_locals
    ⊆ files_with_permission_errors (mkLocals 1 ∅).
Proof.
  apply (copy_loop_counter_and_set_grow
           [(pathlib.of_str "/backup/.config/app.toml",
             pathlib.of_str "/home/u/.config/app.toml")]
           initial_locals (mkLocals 1 ∅) (Toy.start Toy.config_is_a_file)).
  reflexivity.
Defined.

Lemma clean_batch_reports_nothing_witness :
  (for_loop (copy_body false)
     [(pathlib.of_str "/backup/.vimrc", pathlib.of_str "/home/u/.vimrc")]
     initial_locals (Faulty.start Faulty.locked_home)).1
  = Normal (mkLocals 0 ∅).
Proof.
  apply (clean_batch_reports_nothing
           [(pathlib.of_str "/backup/.vimrc", pathlib.of_str "/home/u/.vimrc")]
           (Faulty.start Faulty.locked_home)).
  vm_compute. repeat constructor.
Defined.

Lemma mkdir_failure_aborts_batch_witness :
  (for_loop (copy_body false)
     [(pathlib.of_str "/backup/.config/app.toml",
       pathlib.of_str "/home/u/.config/app.toml");
      (pathlib.of_str "/backup/.vimrc", pathlib.of_str "/home/u/.vimrc")]
     initial_locals (Faulty.start Faulty.locked_home)).1
  = Raised (PermissionError "/home/u/.config").
Proof.
  rewrite (mkdir_failure_aborts_batch initial_locals
             (pathlib.of_str "/backup/.config/app.toml")
             (pathlib.of_str "/home/u/.config/app.toml")
             [(pathlib.of_str "/backup/.vimrc",
               pathlib.of_str "/home/u/.vimrc")]
             (Faulty.start Faulty.locked_home) Faulty.locked_home
             (PermissionError "/home/u/.config")); reflexivity.
Defined.

Lemma same_reported_path_counts_once_witness :
  ∃ loc,
    (for_loop (copy_body false)
       [(pathlib.of_str "/backup/.vimrc", pathlib.of_str "/home/u/.vimrc");
        (pathlib.of_str "/backup/.zshrc", pathlib.of_str "/home/u/.vimrc")]
       initial_locals (Toy.start Toy.two_read_only)).1 = Normal loc
    ∧ size (files_with_permission_errors loc) = 1.
Proof.
  destruct (same_reported_path_counts_once
              [(pathlib.of_str "/backup/.vimrc",
                pathlib.of_str "/home/u/.vimrc");
               (pathlib.of_str "/backup/.zshrc",
                pathlib.of_str "/home/u/.vimrc")]
              (Toy.start Toy.two_read_only) "/home/u/.vimrc" "/home/u/.vimrc")
    as (loc & Hrun & _ & Hsize); [reflexivity..|].
  by exists loc.
Defined.

(** * More on the entry points *)

Section entry_points.
Context {W : Type} `{!Collaborators W}.

(** X11. When the check of the backup directory fails, each entry point
    stops there, in a dry run or not: the check is its only event, nothing
    is printed, read or copied, and the world is untouched. *)
Theorem failed_directory_check_stops_entry_point (path home_path : string)
    (dry_run : bool) (st : state W) (e : exn) :
  (env_exit_if_dir_is_empty (world st) path "dotfile" = Some e →
   reinstall_dots_sb path home_path dry_run st
   = (Raised e,
      mkState (world st)
        (trace st ++ [Call_exit_if_dir_is_empty path "dotfile" (Some e)])))
  ∧ (env_exit_if_dir_is_empty (world st) path "font" = Some e →
     reinstall_fonts_sb path dry_run st
     = (Raised e,
        mkState (world st)
          (trace st ++ [Call_exit_if_dir_is_empty path "font" (Some e)])))
  ∧ (env_exit_if_dir_is_empty (world st) path "config" = Some e →
     reinstall_configs_sb path dry_run st
     = (Raised e,
        mkState (world st)
          (trace st ++ [Call_exit_if_dir_is_empty path "config" (Some e)])))
  ∧ (env_exit_if_dir_is_empty (world st) path "package" = Some e →
     reinstall_packages_sb path dry_run st
     = (Raised e,
        mkState (world st)
          (trace st ++ [Call_exit_if_dir_is_empty path "package" (Some e)]))).
Proof.
  repeat split; intros Hexit.
  - unfold reinstall_dots_sb, bind, exit_if_dir_is_empty, bind, query.
    cbn [world]. by rewrite Hexit.
  - unfold reinstall_fonts_sb, bind, exit_if_dir_is_empty, bind, query.
    cbn [world]. by rewrite Hexit.
  - unfold reinstall_configs_sb, bind, exit_if_dir_is_empty, bind, query.
    cbn [world]. by rewrite Hexit.
  - unfold reinstall_packages_sb, bind, exit_if_dir_is_empty, bind, query.
    cbn [world]. by rewrite Hexit.
Qed.

(** X12. [reinstall_all_sb] runs the dotfile phase with the default home
    path, and an exception of that phase ends the whole run: the package,
    font and configuration phases are not started. *)
Theorem reinstall_all_stops_with_dotfiles
    (dotfiles_path packages_path fonts_path configs_path : string)
    (dry_run : bool) (st : state W) (e : exn) :
  (reinstall_dots_sb dotfiles_path env_home dry_run st).1 = Raised e →
  reinstall_all_sb dotfiles_path packages_path fonts_path configs_path
    dry_run st
  = (Raised e, (reinstall_dots_sb dotfiles_path env_home dry_run st).2).
Proof.
  intros Hdots. unfold reinstall_all_sb, bind at 1.
  destruct (reinstall_dots_sb dotfiles_path env_home dry_run st) as [o st'].
  cbn in Hdots. by subst o.
Qed.

Lemma copy_body_dry_run_confined (P : event → Prop) (loc : copy_locals)
    (pair : Path * Path) :
  (∀ source dest, P (Out_dry_run_copy_info source dest)) →
  confined (W:=W) P (copy_body true loc pair).
Proof. intros HP. destruct pair. cbn. confine. Qed.

(** X13. In a dry run [reinstall_all_sb] makes no call that writes to the
    file system and hands no command to [run_cmd], in any of its four
    phases and whatever they find. *)
Theorem reinstall_all_dry_run_confined
    (dotfiles_path packages_path fonts_path configs_path : string)
    (st : state W) :
  ∃ evs,
    trace (reinstall_all_sb dotfiles_path packages_path fonts_path
             configs_path true st).2 = trace st ++ evs
    ∧ Forall (λ e, fs_mutation e = false ∧ command_run e = false) evs.
Proof.
  apply (confined_bind (W:=W)); [|intros _; apply confined_bind;
                           [|intros _; apply confined_bind; [|intros _]]].
  - unfold reinstall_dots_sb, gather_body. confine.
    by apply copy_body_dry_run_confined.
  - unfold reinstall_packages_sb, pm_body. confine.
  - unfold reinstall_fonts_sb, font_body. confine.
  - unfold reinstall_configs_sb, config_body. confine.
Qed.

End entry_points.

Lemma failed_directory_check_stops_entry_point_witness :
  reinstall_fonts_sb "/backup/fonts" false (Faulty.start Faulty.nothing_saved)
  = (Raised (OtherException "SystemExit: 1"),
     mkState Faulty.nothing_saved
       [Call_exit_if_dir_is_empty "/backup/fonts" "font"
          (Some (OtherException "SystemExit: 1"))]).
Proof.
  destruct (failed_directory_check_stops_entry_point "/backup/fonts"
              "/home/u" false (Faulty.start Faulty.nothing_saved)
              (OtherException "SystemExit: 1")) as (_ & Hfonts & _).
  apply Hfonts. reflexivity.
Defined.

Lemma reinstall_all_stops_with_dotfiles_witness :
  (reinstall_all_sb "/backup/dotfiles" "/backup/packages" "/backup/fonts"
     "/backup/configs" false (Faulty.start Faulty.nothing_saved)).1
  = Raised (OtherException "SystemExit: 1").
Proof.
  rewrite (reinstall_all_stops_with_dotfiles "/backup/dotfiles"
             "/backup/packages" "/backup/fonts" "/backup/configs" false
             (Faulty.start Faulty.nothing_saved)
             (OtherException "SystemExit: 1")); reflexivity.
Defined.

(** * More on fonts and configuration files *)

Section fonts_and_configs.
Context {W : Type} `{!Collaborators W}.

Lemma split_without_separator (sep : ascii) (s : string) :
  PyStr.contains_char sep s = false → PyStr.split sep s = [s].
Proof.
  induction s as [|c s IH]; [done|]. cbn.
  intros [Hc Hs]%orb_false_iff. rewrite Hc, IH; done.
Qed.

(** The last component of a path that ends with a separator and a name. *)
Lemma last_split_file_name (dir name : string) :
  PyStr.contains_char "/"%char name = false →
  List.last (PyStr.split "/"%char (dir +:+ "/" +:+ name)) EmptyString = name.
Proof.
  intros Hname.
  change (dir +:+ "/" +:+ name) with (dir +:+ String "/"%char name).
  rewrite split_app_sep, (split_without_separator _ name) by done.
  apply last_last.
Qed.

Lemma font_body_copies (font : string) (st : state W) (w : W)
    (r : option exn) :
  let fonts_dir := env_get_fonts_dir (world st) in
  let dest_path :=
    shlex.quote (os_path_join fonts_dir
                   (List.last (PyStr.split "/"%char font) EmptyString)) in
  env_copyfile (world st) (shlex.quote font) (shlex.quote dest_path) = (w, r) →
  font_body false tt font st
  = (match r with None => Normal tt | Some e => Raised e end,
     mkState w
       (trace st ++ [Call_get_fonts_dir fonts_dir;
                     Call_copyfile (shlex.quote font) (shlex.quote dest_path)
                       r])).
Proof.
  intros fonts_dir dest_path Hcopy.
  unfold font_body, bind, get_fonts_dir, query, copyfile, bind, action.
  cbn [world trace log]. fold fonts_dir. fold dest_path. rewrite Hcopy.
  rewrite <-app_assoc. by destruct r.
Qed.

(** X14. The destination of a font keeps the file name only: for a font
    under any directory of the backup, the dry run reports, and the copy
    writes, the quoted join of the fonts directory and the file name, so
    fonts with the same file name in different directories of the backup
    go to the same destination. *)
Theorem font_destination_keeps_file_name (dir name : string) (st : state W)
    (w : W) (r : option exn) :
  let font := dir +:+ "/" +:+ name in
  let fonts_dir := env_get_fonts_dir (world st) in
  let dest_path := shlex.quote (os_path_join fonts_dir name) in
  PyStr.contains_char "/"%char name = false →
  env_copyfile (world st) (shlex.quote font) (shlex.quote dest_path) = (w, r) →
  font_body true tt font st
  = (Normal tt,
     mkState (world st)
       (trace st ++ [Call_get_fonts_dir fonts_dir;
                     Out_dry_run_copy_info font dest_path]))
  ∧ font_body false tt font st
    = (match r with None => Normal tt | Some e => Raised e end,
       mkState w
         (trace st ++ [Call_get_fonts_dir fonts_dir;
                       Call_copyfile (shlex.quote font)
                         (shlex.quote dest_path) r])).
Proof.
  intros font fonts_dir dest_path Hname Hcopy. split.
  - unfold font_body, bind, get_fonts_dir, query, emit, log.
    cbn [world trace]. fold font. unfold font at 2.
    rewrite last_split_file_name by done. by rewrite <-app_assoc.
  - unfold dest_path in *.
    rewrite <-(last_split_file_name dir name Hname) in Hcopy.
    rewrite (font_body_copies _ _ _ _ Hcopy). unfold font.
    by rewrite (last_split_file_name dir name Hname).
Qed.

(** X15. The font loop has no handler: when [copyfile] raises for a font,
    a permission error included, the loop stops with that exception and
    the fonts that follow are not copied. *)
Theorem font_copy_failure_aborts (font : string) (rest : list string)
    (st : state W) (w : W) (e : exn) :
  let fonts_dir := env_get_fonts_dir (world st) in
  let dest_path :=
    shlex.quote (os_path_join fonts_dir
                   (List.last (PyStr.split "/"%char font) EmptyString)) in
  env_copyfile (world st) (shlex.quote font) (shlex.quote dest_path)
    = (w, Some e) →
  for_loop (font_body false) (font :: rest) tt st
  = (Raised e,
     mkState w
       (trace st ++ [Call_get_fonts_dir fonts_dir;
                     Call_copyfile (shlex.quote font) (shlex.quote dest_path)
                       (Some e)])).
Proof.
  intros fonts_dir dest_path Hcopy. cbn [for_loop]. unfold bind at 1.
  by rewrite (font_body_copies _ _ _ _ Hcopy).
Qed.

Lemma quote_safe (s : string) :
  s ≠ EmptyString → shlex.find_unsafe s = false → shlex.quote s = s.
Proof. intros Hne Hsafe. unfold shlex.quote. destruct s; [done|]. by rewrite Hsafe. Qed.

(** X16. A font whose path and whose destination are made of safe
    characters only is copied under its own path to the join of the fonts
    directory and its file name: quoting, applied once to the source and
    twice to the destination, changes neither. *)
Theorem safe_font_copied_by_its_path (font : string) (st : state W) (w : W)
    (r : option exn) :
  let fonts_dir := env_get_fonts_dir (world st) in
  let dest :=
    os_path_join fonts_dir
      (List.last (PyStr.split "/"%char font) EmptyString) in
  font ≠ EmptyString → shlex.find_unsafe font = false →
  dest ≠ EmptyString → shlex.find_unsafe dest = false →
  env_copyfile (world st) font dest = (w, r) →
  font_body false tt font st
  = (match r with None => Normal tt | Some e => Raised e end,
     mkState w (trace st ++ [Call_get_fonts_dir fonts_dir;
                             Call_copyfile font dest r])).
Proof.
  intros fonts_dir dest Hfont Hsafe Hdest Hdsafe Hcopy.
  pose proof (quote_safe font Hfont Hsafe) as Hq.
  pose proof (quote_safe dest Hdest Hdsafe) as Hqd.
  rewrite <-Hq, <-Hqd in Hcopy. rewrite <-Hqd in Hcopy at 1.
  rewrite (font_body_copies _ _ _ _ Hcopy). fold fonts_dir dest.
  by rewrite Hq, !Hqd.
Qed.

(** X17. A configuration entry whose quoted source is a directory is copied
    with [copytree], without a test for a regular file; when [copytree]
    raises, as it does on a destination that exists, the loop stops and the
    entries that follow are not copied. *)
Theorem config_directory_copied_as_tree (configs_path dest_path backup_loc : string)
    (rest : list (string * string)) (st : state W) (w : W) (r : option exn) :
  let source := shlex.quote (os_path_join configs_path backup_loc) in
  let st' :=
    mkState w
      (trace st ++ [Call_isdir source true;
                    Call_copytree source (shlex.quote dest_path) r]) in
  env_isdir (world st) source = true →
  env_copytree (world st) source (shlex.quote dest_path) = (w, r) →
  for_loop (config_body configs_path false) ((dest_path, backup_loc) :: rest)
    tt st
  = match r with
    | None => for_loop (config_body configs_path false) rest tt st'
    | Some e => (Raised e, st')
    end.
Proof.
  intros source st' Hdir Hcopy.
  assert (config_body configs_path false tt (dest_path, backup_loc) st
          = (match r with None => Normal tt | Some e => Raised e end, st'))
    as Hbody.
  { unfold config_body, bind, os_path_isdir, query, copytree, bind, action.
    fold source. cbn [world trace log]. rewrite Hdir. unfold log.
    cbn [world trace]. rewrite Hcopy. unfold st'. rewrite <-app_assoc.
    by destruct r. }
  cbn [for_loop]. unfold bind at 1. rewrite Hbody. by destruct r.
Qed.

(** What the configuration loop prints in a dry run. *)
Lemma config_loop_dry_run (configs_path : string)
    (items : list (string * string)) (st : state W) :
  for_loop (config_body configs_path true) items tt st
  = (Normal tt,
     mkState (world st)
       (trace st
        ++ ((λ item, Out_dry_run_copy_info
                       (shlex.quote (os_path_join configs_path item.2))
                       (shlex.quote item.1)) <$> items))).
Proof.
  revert st. induction items as [|[dest_path backup_loc] items IH]; intros st.
  - cbn. rewrite app_nil_r. by destruct st.
  - cbn [for_loop]. unfold bind at 1. cbn. rewrite IH. cbn.
    by rewrite <-app_assoc.
Qed.

(** X18. In a dry run the configuration loop prints one line for every
    entry of the mapping, in order, with the quoted source and destination,
    and tests no path: an entry whose source is missing, which a real run
    skips, is reported like the others. *)
Theorem config_dry_run_reports_every_entry (configs_path : string)
    (items : list (string * string)) (st : state W) :
  for_loop (config_body configs_path true) items tt st
  = (Normal tt,
     mkState (world st)
       (trace st
        ++ ((λ item, Out_dry_run_copy_info
                       (shlex.quote (os_path_join configs_path item.2))
                       (shlex.quote item.1)) <$> items)))
  ∧ length (new_events st
              (for_loop (config_body configs_path true) items tt st).2)
    = length items.
Proof.
  split; [apply config_loop_dry_run|].
  rewrite config_loop_dry_run. unfold new_events. cbn [snd trace].
  by rewrite drop_app_length, length_fmap.
Qed.

End fonts_and_configs.

Lemma font_destination_keeps_file_name_witness :
  font_body true tt ("/backup/fonts/mono" +:+ "/" +:+ "Hack.ttf")
    (Toy.start Toy.two_read_only)
  = (Normal tt,
     mkState Toy.two_read_only
       [Call_get_fonts_dir "/home/u/.fonts";
        Out_dry_run_copy_info "/backup/fonts/mono/Hack.ttf"
          "/home/u/.fonts/Hack.ttf"]).
Proof.
  destruct (font_destination_keeps_file_name "/backup/fonts/mono" "Hack.ttf"
              (Toy.start Toy.two_read_only) Toy.two_read_only
              (Some (FileNotFoundError
                       "[Errno 2] No such file or directory: '/backup/fonts/mono/Hack.ttf'")))
    as [Hdry _]; [reflexivity..|].
  exact Hdry.
Defined.

Lemma font_copy_failure_aborts_witness :
  (for_loop (font_body false)
     ["/backup/fonts/Hack.ttf"; "/backup/fonts/Fira.ttf"] tt
     (Toy.start Toy.two_read_only)).1
  = Raised (FileNotFoundError
              "[Errno 2] No such file or directory: '/backup/fonts/Hack.ttf'").
Proof.
  rewrite (font_copy_failure_aborts "/backup/fonts/Hack.ttf"
             ["/backup/fonts/Fira.ttf"] (Toy.start Toy.two_read_only)
             Toy.two_read_only
             (FileNotFoundError
                "[Errno 2] No such file or directory: '/backup/fonts/Hack.ttf'"));
    reflexivity.
Defined.

Lemma safe_font_copied_by_its_path_witness :
  new_events (Toy.start Toy.two_read_only)
    (font_body false tt "/backup/.vimrc" (Toy.start Toy.two_read_only)).2
  = [Call_get_fonts_dir "/home/u/.fonts";
     Call_copyfile "/backup/.vimrc" "/home/u/.fonts/.vimrc" None].
Proof.
  rewrite (safe_font_copied_by_its_path "/backup/.vimrc"
             (Toy.start Toy.two_read_only)
             (Toy.copy_file Toy.two_read_only "/backup/.vimrc"
                "/home/u/.fonts/.vimrc").1 None);
    [reflexivity|discriminate|reflexivity|discriminate|reflexivity
    |reflexivity].
Defined.

Lemma config_directory_copied_as_tree_witness :
  (for_loop (config_body "/backup/configs" false)
     [("/home/u/.config/nvim", "nvim"); ("/home/u/.config/git", "git")] tt
     (Faulty.start Faulty.config_exists)).1
  = Raised (OtherException "FileExistsError").
Proof.
  rewrite (config_directory_copied_as_tree "/backup/configs"
             "/home/u/.config/nvim" "nvim" [("/home/u/.config/git", "git")]
             (Faulty.start Faulty.config_exists) Faulty.config_exists
             (Some (OtherException "FileExistsError"))); reflexivity.
Defined.

(** * More on the package phase *)

Section package_phase.
Context {W : Type} `{!Collaborators W}.

(** X19. The set of recognised managers depends only on which file names
    the directory holds: the order of the listing and repeated first tokens
    do not matter. *)
Theorem find_package_mgrs_same_names (listing listing' : list string) :
  (∀ file, file ∈ listing ↔ file ∈ listing') →
  find_package_mgrs listing = find_package_mgrs listing'.
Proof.
  intros Hsame. apply set_eq. intros pm.
  rewrite !elem_of_find_package_mgrs. by setoid_rewrite Hsame.
Qed.

Lemma pm_body_vscode (packages_path : string) (dry_run : bool) :
  pm_body (W:=W) packages_path dry_run tt "vscode"
  = (emit (Out_pkg_mgr_reinstall "vscode");;
     file <- open_lines (packages_path +:+ "/vscode_list.txt");;
     for_loop (vscode_body dry_run) file tt).
Proof.
  unfold pm_body. repeat (rewrite bool_decide_false by done).
  by rewrite bool_decide_true.
Qed.

(** X20. The branch of [vscode] opens [vscode_list.txt] whatever file made
    the manager recognised; when the file cannot be opened the exception
    leaves the loop, in a dry run too, and the managers that follow are not
    handled. *)
Theorem vscode_list_missing_raises (packages_path : string) (dry_run : bool)
    (rest : list string) (st : state W) (e : exn) :
  env_open (world st) (packages_path +:+ "/vscode_list.txt") = inl e →
  for_loop (pm_body packages_path dry_run) ("vscode" :: rest) tt st
  = (Raised e,
     mkState (world st)
       (trace st ++ [Out_pkg_mgr_reinstall "vscode";
                     Call_open (packages_path +:+ "/vscode_list.txt")
                       (inl e)])).
Proof.
  intros Hopen. cbn [for_loop]. unfold bind at 1. rewrite pm_body_vscode.
  unfold bind, emit, open_lines, bind, query, log. cbn [world trace].
  rewrite Hopen. cbn. by rewrite <-app_assoc.
Qed.

(** X21. For every manager other than [vscode] the body completes without
    an exception, whatever status [run_cmd] returns: a command that fails
    does not stop the loop, which goes on with the managers that follow. *)
Theorem manager_command_status_ignored (packages_path : string)
    (dry_run : bool) (pm : string) (rest : list string) (st : state W) :
  pm ≠ "vscode" →
  (pm_body packages_path dry_run tt pm st).1 = Normal tt
  ∧ for_loop (pm_body packages_path dry_run) (pm :: rest) tt st
    = for_loop (pm_body packages_path dry_run) rest tt
        (pm_body packages_path dry_run tt pm st).2.
Proof.
  intros Hpm.
  assert ((pm_body packages_path dry_run tt pm st).1 = Normal tt) as Hbody.
  { unfold pm_body. repeat case_bool_decide; try done;
      unfold bind, emit, run_cmd_if_no_dry_run, run_cmd, action, bind, emit,
        ret;
      destruct dry_run; cbn [world trace log]; try done;
      by destruct (env_run_cmd _ _). }
  split; [done|]. cbn [for_loop]. unfold bind at 1.
  destruct (pm_body packages_path dry_run tt pm st) as [o st'].
  cbn in Hbody. by subst o.
Qed.

(** X22. Each of the managers [brew], [npm], [pip], [pip3], [gem] and
    [cargo] runs one command, and that command names the file
    [<manager>_list.txt] of the packages directory, whatever the name of
    the file that made the manager recognised. *)
Theorem manager_command_names_list_file (packages_path pm : string)
    (st : state W) :
  pm ∈ list_file_managers →
  ∃ pre post,
    let cmd := pre +:+ packages_path +:+ "/" +:+ pm +:+ "_list.txt" +:+ post in
    pm_body packages_path false tt pm st
    = (Normal tt,
       mkState (env_run_cmd (world st) cmd).1
         (trace st ++ [Out_pkg_mgr_reinstall pm;
                       Call_run_cmd cmd (env_run_cmd (world st) cmd).2])).
Proof.
  unfold list_file_managers. intros Hpm.
  assert (∀ cmd : string,
    (let (o, st') :=
       (let (o, st') := emit (W:=W) (Out_pkg_mgr_reinstall pm) st in
        match o with
        | Normal _ => run_cmd cmd st'
        | Raised e => (Raised e, st')
        end) in
     match o with
     | Normal _ => ret tt st'
     | Raised e => (Raised e, st')
     end)
    = (Normal tt,
       mkState (env_run_cmd (world st) cmd).1
         (trace st ++ [Out_pkg_mgr_reinstall pm;
                       Call_run_cmd cmd (env_run_cmd (world st) cmd).2])))
    as Hrun.
  { intros cmd. unfold emit, run_cmd, action, log, ret. cbn [world trace].
    destruct (env_run_cmd (world st) cmd). by rewrite <-app_assoc. }
  repeat (apply elem_of_cons in Hpm as [->|Hpm]);
    [..|by apply elem_of_nil in Hpm].
  - exists "brew bundle install --no-lock --file ", EmptyString.
    rewrite <-Hrun. reflexivity.
  - exists "cat ", " | xargs npm install -g". rewrite <-Hrun. reflexivity.
  - exists "pip install -r ", EmptyString. rewrite <-Hrun. reflexivity.
  - exists "pip3 install -r ", EmptyString. rewrite <-Hrun. reflexivity.
  - exists "cat ", " | xargs -L 1 gem install". rewrite <-Hrun. reflexivity.
  - exists "cat ", " | xargs -L 1 cargo install". rewrite <-Hrun. reflexivity.
Qed.

End package_phase.

Lemma find_package_mgrs_same_names_witness :
  find_package_mgrs ["brew_list.txt"; "pip_list.txt"]
  = find_package_mgrs ["pip_list.txt"; "brew_list.txt"; "brew_list.txt"].
Proof. apply find_package_mgrs_same_names. set_solver. Defined.

Lemma vscode_list_missing_raises_witness :
  (for_loop (pm_body "/backup/packages" true) ["vscode"; "brew"] tt
     (Toy.start Toy.two_read_only)).1
  = Raised (FileNotFoundError
              "[Errno 2] No such file or directory: '/backup/packages/vscode_list.txt'").
Proof.
  rewrite (vscode_list_missing_raises "/backup/packages" true ["brew"]
             (Toy.start Toy.two_read_only)
             (FileNotFoundError
                "[Errno 2] No such file or directory: '/backup/packages/vscode_list.txt'"));
    reflexivity.
Defined.

Lemma manager_command_status_ignored_witness :
  (pm_body "/backup/packages" false tt "brew"
     (Faulty.start Faulty.nothing_saved)).1 = Normal tt
  ∧ new_events (Faulty.start Faulty.nothing_saved)
      (pm_body "/backup/packages" false tt "brew"
         (Faulty.start Faulty.nothing_saved)).2
    = [Out_pkg_mgr_reinstall "brew";
       Call_run_cmd
         "brew bundle install --no-lock --file /backup/packages/brew_list.txt"
         1%Z].
Proof.
  destruct (manager_command_status_ignored "/backup/packages" false "brew" []
              (Faulty.start Faulty.nothing_saved)) as [Hbody _];
    [discriminate|].
  split; [exact Hbody|reflexivity].
Defined.

Lemma manager_command_names_list_file_witness :
  ∃ pre post,
    (pm_body "/backup/packages" false tt "gem" (Toy.start Toy.two_lists)).1
    = Normal tt
    ∧ pre +:+ "/backup/packages" +:+ "/" +:+ "gem" +:+ "_list.txt" +:+ post
      = "cat /backup/packages/gem_list.txt | xargs -L 1 gem install".
Proof.
  destruct (manager_command_names_list_file "/backup/packages" "gem"
              (Toy.start Toy.two_lists)) as (pre & post & Hbody);
    [unfold list_file_managers; set_solver|].
  exists "cat ", " | xargs -L 1 gem install". split; reflexivity.
Defined.
